(** * Transfer between accounts: the submit handler of the transfer sheet

    Shallow embedding of
      - [src/features/transactions/hooks/use-transfer.ts]   (the session store)
      - [src/features/transactions/components/transfer-sheet.tsx] ([onSubmit])
    and the properties of the transfer workflow proved about them.

    JavaScript numbers are IEEE-754 binary64 values; they are modelled by the
    Standard Library's executable specification of binary floating point
    ([SpecFloat], precision 53, maximal exponent 1024).  JavaScript strings are
    modelled by [string], read as the UTF-8 bytes of the text. *)

From Stdlib Require Import ZArith List String Ascii Bool Lia.
From Stdlib Require Import Floats.SpecFloat.
Import ListNotations.
Open Scope string_scope.
Open Scope Z_scope.

(** ** JavaScript numbers *)

Module Num.

Definition prec : Z := 53.
Definition emax : Z := 1024.

Definition number : Type := spec_float.

Definition NaN : number := S754_nan.
Definition zero : number := S754_zero false.

(** Nearest binary64 (ties to even) of the integer [n]. *)
Definition of_Z (n : Z) : number := binary_normalize prec emax n 0 false.

(** Nearest binary64 (ties to even) of [(-1)^neg * m * 10^e10], the value
    of a decimal literal with digits [m] and decimal exponent [e10]: the
    integer [m * 10^e10] is rounded once, and for a negative exponent the
    quotient [m / 10^(-e10)] is taken with its remainder's position and rounded
    once. *)
Definition of_decimal (neg : bool) (m : Z) (e10 : Z) : number :=
  match m with
  | Zpos p =>
      if 0 <=? e10
      then binary_normalize prec emax (cond_Zopp neg (m * 10 ^ e10)) 0 false
      else
        let '(q, e, l) :=
          SFdiv_core_binary prec emax m 0 (10 ^ (- e10)) 0 in
        binary_round_aux prec emax neg q e l
  | _ => S754_zero neg
  end.

Definition isNaN (x : number) : bool :=
  match x with S754_nan => true | _ => false end.

Definition isFinite (x : number) : bool :=
  match x with S754_zero _ | S754_finite _ _ _ => true | _ => false end.

Definition abs (x : number) : number := SFabs x.
Definition neg (x : number) : number := SFopp x.
Definition add (x y : number) : number := SFadd prec emax x y.
Definition mul (x y : number) : number := SFmul prec emax x y.
Definition ltb (x y : number) : bool := SFltb x y.
Definition leb (x y : number) : bool := SFleb x y.
Definition gtb (x y : number) : bool := SFltb y x.

(** The binary64 with sign [s] whose magnitude is the positive integer [p],
    for [p < 2^53] (every such integer is a binary64). *)
Definition of_small_pos (s : bool) (p : positive) : number :=
  let d := Z.pos (digits2_pos p) in
  S754_finite s (Z.to_pos (Z.shiftl (Z.pos p) (prec - d))) (d - prec).

(** [Math.round]: the integer closest to [x], ties towards +Infinity;
    non-finite and integral arguments are returned unchanged, and a result of
    magnitude zero keeps the sign of [x]. *)
Definition round (x : number) : number :=
  match x with
  | S754_finite s m e =>
      if 0 <=? e then x
      else
        let k := - e in
        (* floor (x + 1/2), with x = v / 2^k *)
        let n := (2 * cond_Zopp s (Z.pos m) + 2 ^ k) / 2 ^ (k + 1) in
        match n with
        | Z0 => S754_zero s
        | Zpos p => of_small_pos false p
        | Zneg p => of_small_pos true p
        end
  | _ => x
  end.

(** A number of sign [s], or [NaN]. *)
Definition signed (s : bool) (x : number) : Prop :=
  match x with
  | S754_zero s' | S754_infinity s' | S754_finite s' _ _ => s' = s
  | S754_nan => True
  end.

(** A number that is a mathematical integer. *)
Definition isInteger (x : number) : bool :=
  match x with
  | S754_zero _ => true
  | S754_finite _ m e => (0 <=? e) || (Z.pos m mod 2 ^ (- e) =? 0)
  | _ => false
  end.

End Num.

(** ** JavaScript strings *)

Module Str.

(** [s.slice(n)] for [0 <= n]. *)
Definition drop (n : nat) (s : string) : string :=
  substring n (String.length s - n) s.

(** [s.replace(pat, rep)] for a string pattern: only the first occurrence
    is replaced ([rep] is taken literally: it holds no [$]). *)
Fixpoint replace (pat rep s : string) : string :=
  if prefix pat s then rep ++ drop (String.length pat) s
  else
    match s with
    | EmptyString => s
    | String c s' => String c (replace pat rep s')
    end.

Definition code (c : ascii) : Z := Z.of_nat (nat_of_ascii c).

Definition is_digit (c : ascii) : bool := (48 <=? code c) && (code c <=? 57).

Definition digit_value (c : ascii) : Z := code c - 48.

(** White space and line terminators of one byte:
    TAB, LF, VT, FF, CR and SPACE. *)
Definition is_space1 (c : ascii) : bool :=
  ((9 <=? code c) && (code c <=? 13)) || (code c =? 32).

(** U+00A0, as UTF-8. *)
Definition is_space2 (c1 c2 : ascii) : bool :=
  (code c1 =? 194) && (code c2 =? 160).

(** U+1680, U+2000..U+200A, U+2028, U+2029, U+202F, U+205F, U+3000 and
    U+FEFF, as UTF-8. *)
Definition is_space3 (c1 c2 c3 : ascii) : bool :=
  let a := code c1 in
  let b := code c2 in
  let c := code c3 in
  ((a =? 225) && (b =? 154) && (c =? 128))
  || ((a =? 226) && (b =? 128)
      && (((128 <=? c) && (c <=? 138)) || (c =? 168) || (c =? 169) || (c =? 175)))
  || ((a =? 226) && (b =? 129) && (c =? 159))
  || ((a =? 227) && (b =? 128) && (c =? 128))
  || ((a =? 239) && (b =? 187) && (c =? 191)).

(** [TrimString(s, start)]. *)
Fixpoint trimStart (s : string) : string :=
  match s with
  | EmptyString => s
  | String c1 s1 =>
      if is_space1 c1 then trimStart s1
      else
        match s1 with
        | EmptyString => s
        | String c2 s2 =>
            if is_space2 c1 c2 then trimStart s2
            else
              match s2 with
              | EmptyString => s
              | String c3 s3 =>
                  if is_space3 c1 c2 c3 then trimStart s3 else s
              end
        end
  end.

(** Reads the longest run of decimal digits at the head of [s]: the value of
    [acc] followed by these digits, [cnt] plus their number, and the rest. *)
Fixpoint read_digits (acc cnt : Z) (s : string) : Z * Z * string :=
  match s with
  | EmptyString => (acc, cnt, s)
  | String c r =>
      if is_digit c
      then read_digits (10 * acc + digit_value c) (cnt + 1) r
      else (acc, cnt, s)
  end.

(** An optional sign: [true] for [-]. *)
Definition read_sign (s : string) : bool * string :=
  match s with
  | String c r =>
      if (code c =? 45) then (true, r)
      else if (code c =? 43) then (false, r)
      else (false, s)
  | EmptyString => (false, s)
  end.

(** An optional [ExponentPart]: its value, 0 when there is none. *)
Definition read_exponent (s : string) : Z :=
  match s with
  | String c r =>
      if (code c =? 101) || (code c =? 69) then
        let '(eneg, r') := read_sign r in
        let '(ev, n, _) := read_digits 0 0 r' in
        if n =? 0 then 0 else cond_Zopp eneg ev
      else 0
  | EmptyString => 0
  end.

(** The global [parseFloat]: leading white space is skipped, the longest
    prefix that is a [StrDecimalLiteral] is converted (what follows it is
    ignored), and [NaN] is returned when there is no such prefix. *)
Definition parseFloat (input : string) : Num.number :=
  let '(neg, u) := read_sign (trimStart input) in
  if prefix "Infinity" u then S754_infinity neg
  else
    let '(ip, ni, r1) := read_digits 0 0 u in
    let '(m, nf, r2) :=
      match r1 with
      | String c r =>
          if code c =? 46 then read_digits ip 0 r else (ip, 0, r1)
      | EmptyString => (ip, 0, r1)
      end in
    if (ni =? 0) && (nf =? 0) then Num.NaN
    else Num.of_decimal neg m (read_exponent r2 - nf).

(** [s.includes(c)] for a single character. *)
Fixpoint mem (c : ascii) (s : string) : bool :=
  match s with
  | EmptyString => false
  | String c' s' => Ascii.eqb c c' || mem c s'
  end.

Definition starts_with_digit (s : string) : bool :=
  match s with
  | String c _ => is_digit c
  | EmptyString => false
  end.

(** The strings at whose head [parseFloat] finds a number: after the white
    space and an optional sign comes [Infinity], a digit, or a point and a
    digit. *)
Definition hasNumericPrefix (s : string) : bool :=
  let u := snd (read_sign (trimStart s)) in
  prefix "Infinity" u
  || starts_with_digit u
  || match u with
     | String c r => (code c =? 46) && starts_with_digit r
     | EmptyString => false
     end.

Fixpoint all_digits (s : string) : bool :=
  match s with
  | EmptyString => true
  | String c s' => is_digit c && all_digits s'
  end.

End Str.

(** A value that may be [undefined] or [null]. *)
Inductive Nullable (A : Type) : Type :=
| Undefined
| Null
| Value (a : A).
Arguments Undefined {A}.
Arguments Null {A}.
Arguments Value {A} a.

(** [x ?? null] *)
Definition orNull {A : Type} (x : Nullable A) : option A :=
  match x with Value a => Some a | _ => None end.

(** [o ?? d] where [None] stands for a missing (undefined) value. *)
Definition orElse {A : Type} (o : option A) (d : A) : A :=
  match o with Some a => a | None => d end.

(** ** The session store: [use-transfer.ts] *)

Module UseTransfer.

Record TransferState : Type := {
  isOpen : bool;
  fromAccountId : option string
}.

(** The state the store is created with. *)
Definition init : TransferState :=
  {| isOpen := false; fromAccountId := None |}.

(** [onOpen: (fromAccountId?) => set({ isOpen: true, fromAccountId })] *)
Definition onOpen (from : option string) (st : TransferState) : TransferState :=
  {| isOpen := true; fromAccountId := from |}.

(** [onClose: () => set({ isOpen: false, fromAccountId: undefined })] *)
Definition onClose (st : TransferState) : TransferState :=
  {| isOpen := false; fromAccountId := None |}.

Inductive Action : Type :=
| Open (from : option string)
| Close.

Definition step (st : TransferState) (a : Action) : TransferState :=
  match a with
  | Open from => onOpen from st
  | Close => onClose st
  end.

Definition run (acts : list Action) : TransferState :=
  fold_left step acts init.

(** What every state of the store satisfies: closed means no preselection. *)
Definition closed_clear (st : TransferState) : Prop :=
  isOpen st = false -> fromAccountId st = None.

End UseTransfer.

(** ** The transfer sheet: [transfer-sheet.tsx] *)

Module TransferSheet.

(** A [Date], as its time value. *)
Definition Date : Type := Z.

Record Account : Type := { acc_id : string; acc_name : string }.
Record Category : Type := { cat_id : string; cat_name : string }.

(** [FormValues]: what the resolver hands to [onSubmit] ([formSchema]). *)
Record FormValues : Type := {
  date : Date;
  fromAccountId : string;
  toAccountId : string;
  amount : string;
  notes : Nullable string
}.

(** The values held by the form ([useForm]); the selects start undefined. *)
Record FormState : Type := {
  f_date : Date;
  f_fromAccountId : option string;
  f_toAccountId : option string;
  f_amount : string;
  f_notes : Nullable string
}.

(** One item of the bulk-create payload. *)
Record TransactionInput : Type := {
  t_date : Date;
  t_accountId : string;
  t_categoryId : string;
  t_payee : string;
  t_amount : Num.number;
  t_notes : option string
}.

(** Calls made to the collaborators, in the order they are made. *)
Inductive Event : Type :=
| Toast (message variant : string)
| CreateCategory (name : string)
| BulkCreate (payload : list TransactionInput).

(** How the promise of a mutation settles. *)
Inductive Settled (A : Type) : Type :=
| Fulfilled (a : A)
| Rejected.
Arguments Fulfilled {A} a.
Arguments Rejected {A}.

(** [{ data }] of the category creation response. *)
Record CreateCategoryResponse : Type := { res_data : option Category }.

(** [balanceQuery.data] *)
Record Balance : Type := { remainingAmount : option Num.number }.

(** What one run of [onSubmit] reads from its surroundings: the data of the
    queries as of the render the handler belongs to, how the two mutations
    settle, and the clock. *)
Record Env : Type := {
  balanceQuery_data : option Balance;
  categoryQuery_data : option (list Category);
  accountsQuery_data : option (list Account);
  createCategory_settles : Settled (option CreateCategoryResponse);
  bulkCreate_settles : Settled unit;
  now : Date
}.

(** What a run can change: the session store and the values of the form. *)
Record World : Type := {
  store : UseTransfer.TransferState;
  form : FormState
}.

(** *** Asynchronous computations over the world *)

(** The promise of an async function is fulfilled or rejected (a throw). *)
Inductive Completion (A : Type) : Type :=
| Normal (a : A)
| Throw.
Arguments Normal {A} a.
Arguments Throw {A}.

(** A computation returns how it completes, the world it leaves, and the
    calls it made to the collaborators, in order. *)
Definition M (A : Type) : Type := World -> Completion A * World * list Event.

Definition ret {A : Type} (a : A) : M A := fun w => (Normal a, w, []).

Definition bind {A B : Type} (c : M A) (k : A -> M B) : M B :=
  fun w =>
    match c w with
    | (Normal a, w1, l1) =>
        let '(r, w2, l2) := k a w1 in (r, w2, (l1 ++ l2)%list)
    | (Throw, w1, l1) => (Throw, w1, l1)
    end.

Declare Scope async_scope.
Delimit Scope async_scope with async.
Notation "x <- c ;; k" := (bind c (fun x => k))
  (at level 61, c at next level, right associativity) : async_scope.
Notation "c ;; k" := (bind c (fun _ => k))
  (at level 61, right associativity) : async_scope.
Local Open Scope async_scope.

Definition emit (e : Event) : M unit := fun w => (Normal tt, w, [e]).

Definition throw {A : Type} : M A := fun w => (Throw, w, []).

(** Modelled from the spec: [toastAlert] of [@/lib/utils] is not among the
    examined sources; it shows a transient notification and returns. *)
Definition toastAlert (message variant : string) : M unit :=
  emit (Toast message variant).

(** Modelled from the spec: [convertAmountToMiliunits] of [@/lib/utils] is
    not among the examined sources; it scales by 1000 and rounds to the
    nearest integer. *)
Definition convertAmountToMiliunits (amount : Num.number) : Num.number :=
  Num.round (Num.mul amount (Num.of_Z 1000)).

(** [await m.mutateAsync(arg)]: the call is made, then the promise settles. *)
Definition mutateAsync {A : Type} (call : Event) (s : Settled A) : M A :=
  emit call ;;
  match s with
  | Fulfilled a => ret a
  | Rejected => throw
  end.

(** [form.reset(values)] *)
Definition form_reset (v : FormState) : M unit :=
  fun w => (Normal tt, {| store := store w; form := v |}, []).

(** [onClose()] of the session store. *)
Definition onClose : M unit :=
  fun w => (Normal tt,
            {| store := UseTransfer.onClose (store w); form := form w |},
            []).

(** The session store as the component reads it ([useTransfer()]). *)
Definition useTransfer : M UseTransfer.TransferState :=
  fun w => (Normal (store w), w, []).

(** [const remaining = balanceQuery.data?.remainingAmount ?? 0] *)
Definition remaining (env : Env) : Num.number :=
  match balanceQuery_data env with
  | Some b => orElse (remainingAmount b) Num.zero
  | None => Num.zero
  end.

Definition transferCategoryName : string := "Transferências".

(** [accounts.find((a) => a.id === id)?.name] *)
Definition accountName (env : Env) (id : string) : option string :=
  option_map acc_name
    (find (fun a => String.eqb (acc_id a) id)
          (orElse (accountsQuery_data env) [])).

(** The two transactions of a transfer: negative for the source account,
    positive for the target account. *)
Definition payload (env : Env) (values : FormValues)
           (transferCategory : Category) (amountMili : Num.number)
  : list TransactionInput :=
  let fromAccountName := accountName env (fromAccountId values) in
  let toAccountName := accountName env (toAccountId values) in
  [ {| t_date := date values;
       t_accountId := fromAccountId values;
       t_categoryId := cat_id transferCategory;
       t_payee := "Transferência para "
                  ++ orElse toAccountName (toAccountId values);
       t_amount := Num.neg (Num.abs amountMili);
       t_notes := orNull (notes values) |};
    {| t_date := date values;
       t_accountId := toAccountId values;
       t_categoryId := cat_id transferCategory;
       t_payee := "Transferência de "
                  ++ orElse fromAccountName (fromAccountId values);
       t_amount := Num.abs amountMili;
       t_notes := orNull (notes values) |} ].

(** The values the form is reset to. *)
Definition defaults (env : Env) (st : UseTransfer.TransferState) : FormState :=
  {| f_date := now env;
     f_fromAccountId := UseTransfer.fromAccountId st;
     f_toAccountId := None;
     f_amount := EmptyString;
     f_notes := Undefined |}.

Definition onSubmit (env : Env) (values : FormValues) : M unit :=
  st <- useTransfer ;;
  let amountFloat := Str.parseFloat (Str.replace "," "." (amount values)) in
  if Num.isNaN amountFloat || Num.leb amountFloat Num.zero then ret tt
  else
    let amountMili := convertAmountToMiliunits amountFloat in
    (* basic validations *)
    if String.eqb (fromAccountId values) (toAccountId values) then
      toastAlert "Selecione contas diferentes para transferência" "danger"
    else if Num.gtb (Num.abs amountMili) (Num.abs (remaining env)) then
      toastAlert "Saldo insuficiente na conta de origem" "danger"
    else
      (* ensure category exists *)
      transferCategory <-
        match find (fun c => String.eqb (cat_name c) transferCategoryName)
                   (orElse (categoryQuery_data env) []) with
        | Some c => ret (Some c)
        | None =>
            res <- mutateAsync (CreateCategory transferCategoryName)
                               (createCategory_settles env) ;;
            ret (match res with Some r => res_data r | None => None end)
        end ;;
      match transferCategory with
      | None => toastAlert "Erro ao criar categoria de transferências" "danger"
      | Some cat =>
          (* create two transactions: negative for from, positive for to *)
          let items := payload env values cat amountMili in
          mutateAsync (BulkCreate items) (bulkCreate_settles env) ;;
          (* reset form after successful submit and then close *)
          form_reset (defaults env st) ;;
          onClose
      end.

(** *** The parts of [onSubmit], by name *)

(** [parseFloat(values.amount.replace(",", "."))] *)
Definition parseAmount (amount : string) : Num.number :=
  Str.parseFloat (Str.replace "," "." amount).

(** [isNaN(amountFloat) || amountFloat <= 0] *)
Definition invalidAmount (amountFloat : Num.number) : bool :=
  Num.isNaN amountFloat || Num.leb amountFloat Num.zero.

Definition amountMili (values : FormValues) : Num.number :=
  convertAmountToMiliunits (parseAmount (amount values)).

(** [Math.abs(amountMili) > Math.abs(remaining)] *)
Definition exceeds (amountMili remaining : Num.number) : bool :=
  Num.gtb (Num.abs amountMili) (Num.abs remaining).

Inductive ErrorKind : Type :=
| InvalidAmount
| SameAccount
| InsufficientFunds
| CategoryResolutionFailed
| SubmissionFailed.

(** The guards that [onSubmit] checks before it touches the category, in
    the order it checks them: the reason of the first that fires. *)
Definition validate (env : Env) (values : FormValues) : option ErrorKind :=
  if invalidAmount (parseAmount (amount values)) then Some InvalidAmount
  else if String.eqb (fromAccountId values) (toAccountId values)
       then Some SameAccount
  else if exceeds (amountMili values) (remaining env)
       then Some InsufficientFunds
  else None.

Definition sameAccountToast : Event :=
  Toast "Selecione contas diferentes para transferência" "danger".
Definition insufficientFundsToast : Event :=
  Toast "Saldo insuficiente na conta de origem" "danger".
Definition categoryFailedToast : Event :=
  Toast "Erro ao criar categoria de transferências" "danger".

(** The notifications [onSubmit] itself issues for an error kind. *)
Definition notifications (k : ErrorKind) : list Event :=
  match k with
  | InvalidAmount => []
  | SameAccount => [sameAccountToast]
  | InsufficientFunds => [insufficientFundsToast]
  | CategoryResolutionFailed => [categoryFailedToast]
  | SubmissionFailed => []
  end.

(** The category of the data already fetched, if it is there. *)
Definition findTransferCategory (env : Env) : option Category :=
  find (fun c => String.eqb (cat_name c) transferCategoryName)
       (orElse (categoryQuery_data env) []).

(** [res?.data] *)
Definition responseData (res : option CreateCategoryResponse)
  : option Category :=
  match res with Some r => res_data r | None => None end.

(** The block "ensure category exists": find the category, or create it. *)
Definition resolveCategory (env : Env) : M (option Category) :=
  match findTransferCategory env with
  | Some c => ret (Some c)
  | None =>
      res <- mutateAsync (CreateCategory transferCategoryName)
                         (createCategory_settles env) ;;
      ret (responseData res)
  end.

(** What follows the category: the bulk creation, the reset, the close. *)
Definition submit (env : Env) (values : FormValues)
           (st : UseTransfer.TransferState) (cat : Category) : M unit :=
  mutateAsync (BulkCreate (payload env values cat (amountMili values)))
              (bulkCreate_settles env) ;;
  form_reset (defaults env st) ;;
  onClose.

(** What follows a validation that passed. *)
Definition afterValidation (env : Env) (values : FormValues) : M unit :=
  st <- useTransfer ;;
  transferCategory <- resolveCategory env ;;
  match transferCategory with
  | None => emit categoryFailedToast
  | Some cat => submit env values st cat
  end.

Definition completion {A : Type} (r : Completion A * World * list Event)
  : Completion A := fst (fst r).
Definition final {A : Type} (r : Completion A * World * list Event)
  : World := snd (fst r).
Definition calls {A : Type} (r : Completion A * World * list Event)
  : list Event := snd r.

Definition isBulkCreate (e : Event) : bool :=
  match e with BulkCreate _ => true | _ => false end.
Definition isCreateCategory (e : Event) : bool :=
  match e with CreateCategory _ => true | _ => false end.
Definition isToast (e : Event) : bool :=
  match e with Toast _ _ => true | _ => false end.

(** A write is a call that creates something at a collaborator. *)
Definition isWrite (e : Event) : bool := isBulkCreate e || isCreateCategory e.

(** *** The runs of [onSubmit], case by case *)

(** The world after a successful submission. *)
Definition submitted (env : Env) (w : World) : World :=
  {| store := UseTransfer.onClose (store w);
     form := defaults env (store w) |}.

(** The run from the bulk creation on, after the calls [before]. *)
Definition submitRun (env : Env) (values : FormValues) (w : World)
           (cat : Category) (before : list Event)
  : Completion unit * World * list Event :=
  let call := BulkCreate (payload env values cat (amountMili values)) in
  match bulkCreate_settles env with
  | Fulfilled _ => (Normal tt, submitted env w, (before ++ [call])%list)
  | Rejected => (Throw, w, (before ++ [call])%list)
  end.

(** The run of [onSubmit] by cases on what it reads. *)
Definition behaviour (env : Env) (values : FormValues) (w : World)
  : Completion unit * World * list Event :=
  match validate env values with
  | Some k => (Normal tt, w, notifications k)
  | None =>
      match findTransferCategory env with
      | Some cat => submitRun env values w cat []
      | None =>
          let create := CreateCategory transferCategoryName in
          match createCategory_settles env with
          | Rejected => (Throw, w, [create])
          | Fulfilled res =>
              match responseData res with
              | None => (Normal tt, w, [create; categoryFailedToast])
              | Some cat => submitRun env values w cat [create]
              end
          end
      end
  end.

(** How a submission ends: completed, failed with an error kind, or with
    the promise of the category creation rejected. *)
Inductive Outcome : Type :=
| Completed
| Failed (k : ErrorKind)
| CreationRejected.

Definition submitOutcome (env : Env) : Outcome :=
  match bulkCreate_settles env with
  | Fulfilled _ => Completed
  | Rejected => Failed SubmissionFailed
  end.

Definition outcome (env : Env) (values : FormValues) : Outcome :=
  match validate env values with
  | Some k => Failed k
  | None =>
      match findTransferCategory env with
      | Some _ => submitOutcome env
      | None =>
          match createCategory_settles env with
          | Rejected => CreationRejected
          | Fulfilled res =>
              match responseData res with
              | None => Failed CategoryResolutionFailed
              | Some _ => submitOutcome env
              end
          end
      end
  end.

(** *** The rest of the component *)

(** An entry of a select. *)
Record SelectOption : Type := { label : string; value : string }.

(** [(accountsQuery.data ?? []).map((a) => ({ label: a.name, value: a.id }))] *)
Definition accountOptions (env : Env) : list SelectOption :=
  map (fun a => {| label := acc_name a; value := acc_id a |})
      (orElse (accountsQuery_data env) []).

(** What an entry of the account selects shows for an id: the label of the
    first option of that value, the id itself when there is none. *)
Definition shownAs (env : Env) (id : string) : string :=
  match find (fun o => String.eqb (value o) id) (accountOptions env) with
  | Some o => label o
  | None => id
  end.

(** [!!s] for a string that may be undefined. *)
Definition truthy (s : option string) : bool :=
  match s with
  | Some s => negb (String.eqb s EmptyString)
  | None => false
  end.

(** [const selectedFrom = form.watch("fromAccountId") ?? fromAccountId] *)
Definition selectedFrom (w : World) : option string :=
  match f_fromAccountId (form w) with
  | Some id => Some id
  | None => UseTransfer.fromAccountId (store w)
  end.

(** [enabled: isOpen && !!selectedFrom] *)
Definition balanceEnabled (w : World) : bool :=
  UseTransfer.isOpen (store w) && truthy (selectedFrom w).

(** The query of the summary request. *)
Record SummaryQuery : Type := {
  q_accountId : string;
  q_from : string;
  q_to : string
}.

(** The body of the summary response, [null] or with a [data] that may be
    missing. *)
Record SummaryJson : Type := { json_data : option Balance }.

Definition zeroBalance : Balance := {| remainingAmount := Some Num.zero |}.

(** The [queryFn] of the balance query, for the clock reading [isoNow]
    ([new Date().toISOString()]) and the answers [respond] of the summary
    endpoint: the requests made and the data returned. *)
Definition queryFn (isoNow : string)
           (respond : SummaryQuery -> option SummaryJson) (w : World)
  : list SummaryQuery * Balance :=
  if negb (truthy (selectedFrom w)) then ([], zeroBalance)
  else
    let to := substring 0 10 isoNow in
    let from := "1970-01-01" in
    let q := {| q_accountId := orElse (selectedFrom w) EmptyString;
                q_from := from; q_to := to |} in
    ([q],
     match respond q with
     | Some json => orElse (json_data json) zeroBalance
     | None => zeroBalance
     end).


(** [formSchema]: the two account ids must be strings; the date of the form
    is a date, the amount a string, the notes may be missing. *)
Definition formSchema (f : FormState) : option FormValues :=
  match f_fromAccountId f, f_toAccountId f with
  | Some from, Some to =>
      Some {| date := f_date f;
              fromAccountId := from;
              toAccountId := to;
              amount := f_amount f;
              notes := f_notes f |}
  | _, _ => None
  end.

(** [form.handleSubmit(onSubmit)]: the handler runs on the values of the form
    when they satisfy the schema, and not at all otherwise. *)
Definition handleSubmit (env : Env) : M unit :=
  fun w =>
    match formSchema (form w) with
    | Some values => onSubmit env values w
    | None => ret tt w
    end.


End TransferSheet.

(** ** The specification's wording, for comparison with the code *)

Module Spec.

Import TransferSheet.

(** A numeric amount: an optional sign, then digits with at most one
    decimal separator, [.] or [,], and nothing else. *)
Definition numeric (s : string) : bool :=
  let '(_, u) := Str.read_sign s in
  let '(_, ni, r1) := Str.read_digits 0 0 u in
  match r1 with
  | EmptyString => 0 <? ni
  | String c r =>
      ((Str.code c =? 46) || (Str.code c =? 44))
      && (let '(_, nf, r2) := Str.read_digits 0 0 r in
          (String.eqb r2 EmptyString) && (0 <? ni + nf))
  end.

(** "Fails with InvalidAmount when the string is not numeric or parses to a
    non-positive value." *)
Definition failsExactlyWhenNotNumeric : Prop :=
  forall s : string,
    invalidAmount (parseAmount s) = true <->
    (numeric s = false \/ Num.leb (parseAmount s) Num.zero = true).

(** "Idle -> Resolving (on submit): call Category Resolver", and only then
    the validation: the calls of a submission start with the resolver's. *)
Definition resolverCalledFirst : Prop :=
  forall (env : Env) (values : FormValues) (w : World),
  exists rest : list Event,
    calls (onSubmit env values w)
    = (calls (resolveCategory env w) ++ rest)%list.

(** "Validation rejects when sourceAccountId == targetAccountId, regardless
    of amount." *)
Definition sameAccountWhateverAmount : Prop :=
  forall (env : Env) (values : FormValues),
    fromAccountId values = toAccountId values ->
    validate env values = Some SameAccount.

(** "All [error kinds] are surfaced to the user as a transient
    notification." *)
Definition everyErrorNotified : Prop :=
  forall (env : Env) (values : FormValues) (w : World) (k : ErrorKind),
    outcome env values = Failed k ->
    existsb isToast (calls (onSubmit env values w)) = true.

(** Without balance data every positive amount is refused for insufficient
    funds and nothing is written. *)
Definition noBalanceAlwaysInsufficient : Prop :=
  forall (env : Env) (values : FormValues) (w : World),
    balanceQuery_data env = None ->
    invalidAmount (parseAmount (amount values)) = false ->
    validate env values = Some InsufficientFunds
    /\ existsb isWrite (calls (onSubmit env values w)) = false.

End Spec.

(** ** Sample data *)

Module Sample.

Import TransferSheet.

Definition transferCat : Category :=
  {| cat_id := "cat_t"; cat_name := transferCategoryName |}.

Definition accounts : list Account :=
  [ {| acc_id := "acc_1"; acc_name := "Carteira" |};
    {| acc_id := "acc_2"; acc_name := "Banco" |} ].

(** Balance 100.00 on the selected account, the transfer category fetched,
    both mutations succeeding. *)
Definition env : Env :=
  {| balanceQuery_data := Some {| remainingAmount := Some (Num.of_Z 100000) |};
     categoryQuery_data := Some [ transferCat ];
     accountsQuery_data := Some accounts;
     createCategory_settles :=
       Fulfilled (Some {| res_data := Some transferCat |});
     bulkCreate_settles := Fulfilled tt;
     now := 1704153600000 |}.

(** No balance data, no category fetched, and a creation that answers
    without data. *)
Definition env_bare : Env :=
  {| balanceQuery_data := None;
     categoryQuery_data := None;
     accountsQuery_data := None;
     createCategory_settles := Fulfilled (Some {| res_data := None |});
     bulkCreate_settles := Fulfilled tt;
     now := 1704153600000 |}.

(** Balance 10.00. *)
Definition env_low : Env :=
  {| balanceQuery_data := Some {| remainingAmount := Some (Num.of_Z 10000) |};
     categoryQuery_data := Some [ transferCat ];
     accountsQuery_data := Some accounts;
     createCategory_settles :=
       Fulfilled (Some {| res_data := Some transferCat |});
     bulkCreate_settles := Fulfilled tt;
     now := 1704153600000 |}.

(** An overdrawn account: balance -50.00. *)
Definition env_overdrawn : Env :=
  {| balanceQuery_data := Some {| remainingAmount := Some (Num.of_Z (-50000)) |};
     categoryQuery_data := Some [ transferCat ];
     accountsQuery_data := Some accounts;
     createCategory_settles :=
       Fulfilled (Some {| res_data := Some transferCat |});
     bulkCreate_settles := Fulfilled tt;
     now := 1704153600000 |}.

(** Balance 100.00, no transfer category among those fetched, and a creation
    that answers without data. *)
Definition env_creation_fails : Env :=
  {| balanceQuery_data := Some {| remainingAmount := Some (Num.of_Z 100000) |};
     categoryQuery_data :=
       Some [ {| cat_id := "cat_f"; cat_name := "Mercado" |} ];
     accountsQuery_data := Some accounts;
     createCategory_settles := Fulfilled (Some {| res_data := None |});
     bulkCreate_settles := Fulfilled tt;
     now := 1704153600000 |}.

(** No balance data (no account selected, or the query not resolved), the
    transfer category fetched. *)
Definition env_no_balance : Env :=
  {| balanceQuery_data := None;
     categoryQuery_data := Some [ transferCat ];
     accountsQuery_data := Some accounts;
     createCategory_settles :=
       Fulfilled (Some {| res_data := Some transferCat |});
     bulkCreate_settles := Fulfilled tt;
     now := 1704153600000 |}.

(** The bulk creation fails. *)
Definition env_bulk_fails : Env :=
  {| balanceQuery_data := Some {| remainingAmount := Some (Num.of_Z 100000) |};
     categoryQuery_data := Some [ transferCat ];
     accountsQuery_data := Some accounts;
     createCategory_settles :=
       Fulfilled (Some {| res_data := Some transferCat |});
     bulkCreate_settles := Rejected;
     now := 1704153600000 |}.

Definition transfer (from to amount : string) : FormValues :=
  {| date := 1704067200000;
     fromAccountId := from;
     toAccountId := to;
     amount := amount;
     notes := Undefined |}.

(** The sheet opened from account [acc_1]. *)
Definition world : World :=
  {| store := UseTransfer.onOpen (Some "acc_1") UseTransfer.init;
     form := {| f_date := 1704067200000;
                f_fromAccountId := Some "acc_1";
                f_toAccountId := Some "acc_2";
                f_amount := "40.00";
                f_notes := Undefined |} |}.

End Sample.

(** ** Facts about numbers *)

Module NumFacts.

Import Num.

Lemma add_neg_abs (x : number) :
  isFinite x = true -> add (neg (abs x)) (abs x) = zero.
Proof.
  destruct x as [s | s | | s m e]; cbn; try discriminate; intros _.
  - reflexivity.
  - unfold add, SFadd. rewrite Z.min_id. unfold shl_align.
    rewrite Z.sub_diag. cbn. now rewrite Z.pos_sub_diag.
Qed.

Lemma SFcompare_refl (x : number) :
  SFcompare x x = if isNaN x then None else Some Eq.
Proof.
  destruct x as [s | [|] | | [|] m e]; cbn; try reflexivity;
    now rewrite Z.compare_refl, Pos.compare_cont_refl.
Qed.

Lemma SFcompare_antisym (x y : number) :
  SFcompare y x = option_map CompOpp (SFcompare x y).
Proof.
  destruct x as [s | [|] | | [|] m e], y as [s' | [|] | | [|] m' e'];
    cbn; try reflexivity;
    try (destruct s; reflexivity); try (destruct s'; reflexivity).
  - rewrite (Z.compare_antisym e e').
    destruct (e ?= e'); cbn; try reflexivity.
    now rewrite CompOpp_involutive, (Pos.compare_cont_antisym m' m Eq).
  - rewrite (Z.compare_antisym e e').
    destruct (e ?= e'); cbn; try reflexivity.
    now rewrite (Pos.compare_cont_antisym m m' Eq).
Qed.

Lemma gtb_irrefl (x : number) : gtb x x = false.
Proof.
  unfold gtb, SFltb. rewrite SFcompare_refl. now destruct (isNaN x).
Qed.

Lemma leb_not_gtb (x y : number) : leb x y = true -> gtb x y = false.
Proof.
  unfold leb, gtb, SFleb, SFltb. rewrite (SFcompare_antisym x y).
  destruct (SFcompare x y) as [[ | | ]|]; cbn; congruence.
Qed.

Lemma shr_1_nonneg (mrs : shr_record) :
  0 <= shr_m mrs -> 0 <= shr_m (shr_1 mrs).
Proof.
  destruct mrs as [m r s]. cbn.
  destruct m as [|[p|p|]|[p|p|]]; cbn; lia.
Qed.

Lemma iter_shr_1_nonneg (p : positive) :
  forall mrs, 0 <= shr_m mrs -> 0 <= shr_m (iter_pos shr_1 p mrs).
Proof.
  induction p as [p IH | p IH |]; intros mrs H; cbn.
  - apply IH, IH, shr_1_nonneg, H.
  - apply IH, IH, H.
  - apply shr_1_nonneg, H.
Qed.

Lemma shr_fexp_nonneg (m e : Z) (l : location) :
  0 <= m -> 0 <= shr_m (fst (shr_fexp prec emax m e l)).
Proof.
  intros H. unfold shr_fexp, shr.
  assert (H0 : 0 <= shr_m (shr_record_of_loc m l))
    by (destruct l as [|[ | | ]]; exact H).
  destruct (fexp prec emax (Zdigits2 m + e) - e) as [|p|p]; cbn [fst];
    auto using iter_shr_1_nonneg.
Qed.

Lemma round_nearest_even_nonneg (m : Z) (l : location) :
  0 <= m -> 0 <= round_nearest_even m l.
Proof.
  intros H. destruct l as [|[ | | ]]; cbn; try lia.
  destruct (Z.even m); lia.
Qed.

Lemma binary_round_aux_not_nan (s : bool) (m e : Z) (l : location) :
  0 <= m -> isNaN (binary_round_aux prec emax s m e l) = false.
Proof.
  intros H. unfold binary_round_aux.
  pose proof (shr_fexp_nonneg m e l H) as H1.
  destruct (shr_fexp prec emax m e l) as [mrs1 e1]. cbn [fst] in H1.
  pose proof (shr_fexp_nonneg _ e1 loc_Exact
                (round_nearest_even_nonneg _ (loc_of_shr_record mrs1) H1)) as H2.
  destruct (shr_fexp prec emax _ e1 loc_Exact) as [mrs2 e2]. cbn [fst] in H2.
  destruct (shr_m mrs2) as [|p|p]; try reflexivity.
  - now destruct (e2 <=? emax - prec).
  - lia.
Qed.


Lemma round_not_nan (x : number) : isNaN x = false -> isNaN (round x) = false.
Proof.
  destruct x as [s | s | | s m e]; cbn; auto.
  intros _. destruct (0 <=? e); [reflexivity|].
  now destruct (_ / _).
Qed.

Lemma mul_thousand_not_nan (x : number) :
  isNaN x = false -> leb x zero = false ->
  isNaN (mul x (of_Z 1000)) = false.
Proof.
  destruct x as [s | s | | s m e]; cbn; try discriminate; auto.
  intros _ _. apply binary_round_aux_not_nan. lia.
Qed.

Lemma of_small_pos_integer (s : bool) (p : positive) :
  isInteger (of_small_pos s p) = true.
Proof.
  unfold of_small_pos, isInteger.
  set (d := Z.pos (digits2_pos p)).
  destruct (Z.leb_spec 0 (d - prec)) as [H|H]; [reflexivity|].
  cbn [orb]. apply Z.eqb_eq.
  rewrite Z.shiftl_mul_pow2 by lia.
  replace (- (d - prec)) with (prec - d) by lia.
  assert (0 < 2 ^ (prec - d)) by (apply Z.pow_pos_nonneg; lia).
  rewrite Z2Pos.id by lia.
  apply Z.mod_mul. lia.
Qed.

Lemma round_integer (x : number) :
  isFinite x = true -> isInteger (round x) = true.
Proof.
  destruct x as [s | s | | s m e]; cbn; try discriminate; auto.
  intros _. destruct (Z.leb_spec 0 e) as [H|H].
  - cbn. apply Z.leb_le in H. now rewrite H.
  - destruct (_ / _);
      [reflexivity | apply of_small_pos_integer ..].
Qed.

Lemma round_finite (x : number) : isFinite (round x) = isFinite x.
Proof.
  destruct x as [s | s | | s m e]; cbn; auto.
  destruct (0 <=? e); [reflexivity|].
  now destruct (_ / _).
Qed.

Lemma not_exceeding_finite (a r : number) :
  isNaN a = false -> isFinite r = true ->
  gtb (abs a) (abs r) = false -> isFinite a = true.
Proof.
  destruct a as [s | s | | s m e]; cbn; try discriminate; auto.
  destruct r as [s' | s' | | s' m' e']; cbn; discriminate.
Qed.

Lemma div_core_nonneg (m1 e1 m2 e2 : Z) :
  0 <= m1 -> 0 < m2 ->
  0 <= fst (fst (SFdiv_core_binary prec emax m1 e1 m2 e2)).
Proof.
  intros H1 H2. unfold SFdiv_core_binary.
  set (s := e1 - e2 - _).
  set (m' := match s with Z0 => m1 | Zpos _ => Z.shiftl m1 s | Zneg _ => 0 end).
  assert (Hm : 0 <= m').
  { subst m'. destruct s; try lia. apply Z.shiftl_nonneg. exact H1. }
  pose proof (Z.div_eucl_eq m' m2 ltac:(lia)) as E.
  pose proof (Z.mod_pos_bound m' m2 H2) as B.
  unfold Z.modulo in B.
  destruct (Z.div_eucl m' m2) as [q r]. cbn [fst]. nia.
Qed.

Lemma of_decimal_not_nan (sg : bool) (m e10 : Z) :
  isNaN (of_decimal sg m e10) = false.
Proof.
  unfold of_decimal. destruct m as [|p|p]; try reflexivity.
  destruct (Z.leb_spec 0 e10) as [He|He].
  - unfold binary_normalize.
    destruct (cond_Zopp sg (Z.pos p * 10 ^ e10)) as [|q|q]; try reflexivity;
      unfold binary_round;
      destruct (shl_align _ _ _) as [mz ez];
      apply binary_round_aux_not_nan; lia.
  - pose proof (div_core_nonneg (Z.pos p) 0 (10 ^ (- e10)) 0 ltac:(lia)) as H.
    destruct (SFdiv_core_binary prec emax (Z.pos p) 0 (10 ^ (- e10)) 0)
      as [[q e] l].
    apply binary_round_aux_not_nan. cbn [fst] in H. apply H.
    apply Z.pow_pos_nonneg; lia.
Qed.

Lemma SFcompare_some (x y : number) :
  isNaN x = false -> isNaN y = false -> SFcompare x y <> None.
Proof.
  destruct x as [s | s | | s m e], y as [s' | s' | | s' m' e'];
    cbn; try discriminate; intros _ _; discriminate.
Qed.

Lemma not_gtb_leb (x y : number) :
  isNaN x = false -> isNaN y = false -> gtb x y = false -> leb x y = true.
Proof.
  intros Hx Hy. unfold gtb, leb, SFltb, SFleb.
  pose proof (SFcompare_some x y Hx Hy) as H.
  rewrite (SFcompare_antisym x y).
  destruct (SFcompare x y) as [[ | | ]|]; cbn; congruence.
Qed.

Lemma abs_not_nan (x : number) : isNaN (abs x) = isNaN x.
Proof. now destruct x. Qed.

Lemma abs_nonneg (x : number) : isNaN x = false -> leb zero (abs x) = true.
Proof. destruct x as [s | s | | s m e]; cbn; try discriminate; reflexivity. Qed.

Lemma neg_abs_nonpos (x : number) :
  isNaN x = false -> leb (neg (abs x)) zero = true.
Proof. destruct x as [s | s | | s m e]; cbn; try discriminate; reflexivity. Qed.

Lemma isInteger_abs (x : number) : isInteger (abs x) = isInteger x.
Proof. now destruct x. Qed.

Lemma isInteger_neg (x : number) : isInteger (neg x) = isInteger x.
Proof. now destruct x. Qed.

Lemma binary_round_aux_signed (s : bool) (m e : Z) (l : location) :
  signed s (binary_round_aux prec emax s m e l).
Proof.
  unfold binary_round_aux.
  destruct (shr_fexp prec emax m e l) as [mrs1 e1].
  destruct (shr_fexp prec emax _ e1 loc_Exact) as [mrs2 e2].
  destruct (shr_m mrs2) as [|p|p];
    [reflexivity | destruct (_ <=? _); reflexivity | exact I].
Qed.

Lemma signed_true_nonpos (x : number) :
  signed true x -> isNaN x || leb x zero = true.
Proof.
  destruct x as [s | s | | s m e]; cbn; try reflexivity; now intros ->.
Qed.

Lemma of_decimal_signed (m e10 : Z) : signed true (of_decimal true m e10).
Proof.
  unfold of_decimal. destruct m as [|p|p]; cbn [signed]; auto.
  destruct (Z.leb_spec 0 e10) as [He|He].
  - assert (P : 0 < Z.pos p * 10 ^ e10)
      by (apply Z.mul_pos_pos; [lia | apply Z.pow_pos_nonneg; lia]).
    unfold binary_normalize, cond_Zopp.
    destruct (Z.pos p * 10 ^ e10) as [|q|q]; try lia.
    cbn [Z.opp]. unfold binary_round.
    destruct (shl_align _ _ _) as [mz ez]. apply binary_round_aux_signed.
  - destruct (SFdiv_core_binary prec emax (Z.pos p) 0 (10 ^ (- e10)) 0)
      as [[q e] l].
    apply binary_round_aux_signed.
Qed.

End NumFacts.

(** ** Facts about strings *)

Module StrFacts.

Import Str.

Lemma substring_all (s : string) : substring 0 (String.length s) s = s.
Proof. induction s as [|c s IH]; cbn; [reflexivity | now rewrite IH]. Qed.

Lemma drop_one (c : ascii) (s : string) : drop 1 (String c s) = s.
Proof. unfold drop. cbn. rewrite Nat.sub_0_r. apply substring_all. Qed.

Lemma prefix_comma (c : ascii) (s : string) :
  prefix "," (String c s) = Ascii.eqb "," c.
Proof.
  cbn [prefix]. destruct (ascii_dec "," c) as [E|E].
  - subst c. rewrite Ascii.eqb_refl. destruct s; reflexivity.
  - symmetry. now apply Ascii.eqb_neq.
Qed.

Lemma replace_absent (s : string) :
  mem "," s = false -> replace "," "." s = s.
Proof.
  induction s as [|c s IH]; [reflexivity|].
  cbn [mem]. intros H. apply orb_false_iff in H as [H1 H2].
  cbn [replace]. rewrite prefix_comma, H1. now rewrite IH.
Qed.

Lemma replace_first (a b : string) :
  mem "," a = false ->
  replace "," "." (a ++ "," ++ b) = a ++ "." ++ b.
Proof.
  induction a as [|c a IH].
  - intros _. change (EmptyString ++ "," ++ b) with (String "," b).
    cbn [replace]. rewrite prefix_comma. cbn [Ascii.eqb Bool.eqb].
    change (String.length ",") with 1%nat. now rewrite drop_one.
  - cbn [mem]. intros H. apply orb_false_iff in H as [H1 H2].
    change (String c a ++ "," ++ b) with (String c (a ++ "," ++ b)).
    cbn [replace]. rewrite prefix_comma, H1. now rewrite IH.
Qed.

Lemma mem_app (c : ascii) (a b : string) :
  mem c (a ++ b) = mem c a || mem c b.
Proof.
  induction a as [|x a IH]; [reflexivity|].
  cbn [append mem]. now rewrite IH, orb_assoc.
Qed.

Lemma read_digits_count_le (s : string) :
  forall acc cnt, cnt <= snd (fst (read_digits acc cnt s)).
Proof.
  induction s as [|c s IH]; intros acc cnt; cbn [read_digits fst snd]; [lia|].
  destruct (is_digit c); cbn [fst snd]; [|lia].
  specialize (IH (10 * acc + digit_value c) (cnt + 1)). lia.
Qed.

Lemma read_digits_some (s : string) (acc : Z) :
  starts_with_digit s = true ->
  (snd (fst (read_digits acc 0 s)) =? 0) = false.
Proof.
  destruct s as [|c s]; cbn [starts_with_digit read_digits]; [discriminate|].
  intros ->. apply Z.eqb_neq.
  pose proof (read_digits_count_le s (10 * acc + digit_value c) (0 + 1)). lia.
Qed.

Lemma read_digits_none (s : string) (acc : Z) :
  starts_with_digit s = false -> read_digits acc 0 s = (acc, 0, s).
Proof.
  destruct s as [|c s]; cbn; [reflexivity|]. now intros ->.
Qed.

Lemma parseFloat_nan (s : string) :
  Num.isNaN (parseFloat s) = negb (hasNumericPrefix s).
Proof.
  unfold parseFloat, hasNumericPrefix.
  destruct (read_sign (trimStart s)) as [sg u]. cbn [snd].
  destruct (prefix "Infinity" u); [reflexivity|]. cbn [orb].
  destruct (starts_with_digit u) eqn:D.
  - pose proof (read_digits_some u 0 D) as H.
    destruct (read_digits 0 0 u) as [[ip ni] r1]. cbn [fst snd] in H.
    cbn [orb negb].
    destruct (match r1 with
              | EmptyString => (ip, 0, r1)
              | String c r =>
                  if code c =? 46 then read_digits ip 0 r else (ip, 0, r1)
              end) as [[m nf] r2].
    rewrite H. cbn [andb]. apply NumFacts.of_decimal_not_nan.
  - rewrite (read_digits_none u 0 D). cbn [orb].
    destruct u as [|c r]; [reflexivity|].
    destruct (code c =? 46); [|reflexivity]. cbn [andb].
    destruct (starts_with_digit r) eqn:D'.
    + pose proof (read_digits_some r 0 D') as H.
      destruct (read_digits 0 0 r) as [[m nf] r2]. cbn [fst snd] in H.
      rewrite H. cbn. apply NumFacts.of_decimal_not_nan.
    + now rewrite (read_digits_none r 0 D').
Qed.
Lemma replace_minus (s : string) :
  replace "," "." (String "-" s) = String "-" (replace "," "." s).
Proof. cbn [replace]. now rewrite prefix_comma. Qed.

Lemma trimStart_minus (s : string) :
  trimStart (String "-" s) = String "-" s.
Proof. destruct s as [|c2 [|c3 s3]]; reflexivity. Qed.

Lemma digit_not_space (c : ascii) (s : string) :
  is_digit c = true -> trimStart (String c s) = String c s.
Proof.
  unfold is_digit. intros H. apply andb_true_iff in H as [H1 H2].
  apply Z.leb_le in H1, H2.
  assert (S1 : is_space1 c = false).
  { unfold is_space1. apply orb_false_iff. split.
    - apply andb_false_iff. right. apply Z.leb_gt. lia.
    - apply Z.eqb_neq. lia. }
  assert (N : forall k, 57 < k -> (code c =? k) = false)
    by (intros k Hk; apply Z.eqb_neq; lia).
  cbn [trimStart]. rewrite S1.
  destruct s as [|c2 s2]; [reflexivity|].
  unfold is_space2. rewrite (N 194) by lia. cbn [andb].
  destruct s2 as [|c3 s3]; [reflexivity|].
  unfold is_space3.
  rewrite (N 225), (N 226), (N 227), (N 239) by lia. reflexivity.
Qed.

Lemma digit_not_sign (c : ascii) (s : string) :
  is_digit c = true -> read_sign (String c s) = (false, String c s).
Proof.
  unfold is_digit, read_sign. intros H. apply andb_true_iff in H as [H1 H2].
  apply Z.leb_le in H1, H2.
  replace (code c =? 45) with false by (symmetry; apply Z.eqb_neq; lia).
  replace (code c =? 43) with false by (symmetry; apply Z.eqb_neq; lia).
  reflexivity.
Qed.

Lemma digit_not_Infinity (c : ascii) (s : string) :
  is_digit c = true -> prefix "Infinity" (String c s) = false.
Proof.
  intros H. cbn [prefix]. destruct (ascii_dec "I" c) as [<-|_]; [|reflexivity].
  discriminate H.
Qed.

Lemma append_empty (s : string) : s ++ EmptyString = s.
Proof. induction s as [|c s IH]; cbn; [reflexivity | now rewrite IH]. Qed.

Lemma read_digits_app (a : string) :
  forall (acc cnt : Z) (r : string),
    all_digits a = true -> starts_with_digit r = false ->
    read_digits acc cnt (a ++ r)
    = (fst (fst (read_digits acc cnt a)), snd (fst (read_digits acc cnt a)), r).
Proof.
  induction a as [|c a IH]; intros acc cnt r A R.
  - cbn [append]. destruct r as [|c r]; [reflexivity|].
    cbn in R. cbn [read_digits]. now rewrite R.
  - cbn [all_digits] in A. apply andb_true_iff in A as [A1 A2].
    cbn [append read_digits]. rewrite A1. now apply IH.
Qed.

Lemma mem_comma_digits (a : string) : all_digits a = true -> mem "," a = false.
Proof.
  induction a as [|c a IH]; [reflexivity|].
  cbn [all_digits mem]. intros A. apply andb_true_iff in A as [A1 A2].
  rewrite (IH A2), orb_false_r. apply Ascii.eqb_neq. intros <-. discriminate A1.
Qed.

(** What [parseFloat] reads after digits, a point and digits does not depend
    on a tail that starts with neither a digit nor an exponent mark. *)
Lemma parseFloat_tail (c : ascii) (a b r : string) :
  is_digit c = true -> all_digits a = true -> all_digits b = true ->
  starts_with_digit r = false -> read_exponent r = 0 ->
  parseFloat (String c a ++ "." ++ b ++ r) = parseFloat (String c a ++ "." ++ b).
Proof.
  intros C A B R X.
  assert (A' : all_digits (String c a) = true) by (cbn; now rewrite C, A).
  assert (G : forall t, starts_with_digit t = false -> read_exponent t = 0 ->
              parseFloat (String c a ++ "." ++ b ++ t)
              = Num.of_decimal false
                  (fst (fst (read_digits
                               (fst (fst (read_digits 0 0 (String c a)))) 0 b)))
                  (0 - snd (fst (read_digits
                               (fst (fst (read_digits 0 0 (String c a)))) 0 b)))).
  { intros t T E. unfold parseFloat.
    change (String c a ++ "." ++ b ++ t) with (String c (a ++ "." ++ b ++ t)).
    rewrite (digit_not_space c _ C), (digit_not_sign c _ C),
      (digit_not_Infinity c _ C).
    change (String c (a ++ "." ++ b ++ t))
      with (String c a ++ String "." (b ++ t)).
    rewrite (read_digits_app (String c a) 0 0 (String "." (b ++ t)) A' eq_refl).
    change (code "." =? 46) with true. cbn iota.
    rewrite (read_digits_app b _ 0 t B T).
    rewrite (read_digits_some (String c a) 0 C). cbn [andb].
    now rewrite E. }
  rewrite (G r R X).
  rewrite <- (G EmptyString eq_refl eq_refl).
  now rewrite (append_empty b).
Qed.
Lemma parseFloat_minus_signed (s : string) :
  Num.signed true (parseFloat (String "-" s)).
Proof.
  unfold parseFloat. rewrite trimStart_minus.
  change (read_sign (String "-" s)) with (true, s). cbv beta iota.
  destruct (prefix "Infinity" s); [reflexivity|].
  destruct (read_digits 0 0 s) as [[ip ni] r1].
  destruct (match r1 with
            | EmptyString => (ip, 0, r1)
            | String c r =>
                if code c =? 46 then read_digits ip 0 r
                else (ip, 0, r1)
            end) as [[m nf] r2].
  destruct ((ni =? 0) && (nf =? 0)); [exact I|].
  apply NumFacts.of_decimal_signed.
Qed.

End StrFacts.

(** ** Facts about [onSubmit] *)

Module SheetFacts.

Import TransferSheet.

Lemma onSubmit_rejected env values w k :
  validate env values = Some k ->
  onSubmit env values w = (Normal tt, w, notifications k).
Proof.
  unfold validate, onSubmit, bind, useTransfer, amountMili, exceeds,
    invalidAmount, parseAmount.
  cbn beta iota.
  destruct (Num.isNaN _ || Num.leb _ _)%bool.
  - intros [= <-]. reflexivity.
  - destruct (String.eqb _ _).
    + intros [= <-]. reflexivity.
    + destruct (Num.gtb _ _).
      * intros [= <-]. reflexivity.
      * discriminate.
Qed.

Lemma onSubmit_validated env values w :
  validate env values = None ->
  onSubmit env values w = afterValidation env values w.
Proof.
  unfold validate, onSubmit, afterValidation, bind, useTransfer, amountMili,
    exceeds, invalidAmount, parseAmount.
  cbn beta iota.
  destruct (Num.isNaN _ || Num.leb _ _)%bool; [discriminate|].
  destruct (String.eqb _ _); [discriminate|].
  destruct (Num.gtb _ _); [discriminate|].
  intros _. reflexivity.
Qed.

Lemma resolveCategory_run env w :
  resolveCategory env w =
  match findTransferCategory env with
  | Some cat => (Normal (Some cat), w, [])
  | None =>
      match createCategory_settles env with
      | Fulfilled res =>
          (Normal (responseData res), w,
           [CreateCategory transferCategoryName])
      | Rejected => (Throw, w, [CreateCategory transferCategoryName])
      end
  end.
Proof.
  unfold resolveCategory.
  destruct (findTransferCategory env); [reflexivity|].
  unfold mutateAsync, bind, emit, ret, throw.
  destruct (createCategory_settles env); reflexivity.
Qed.

Lemma afterValidation_run env values w :
  validate env values = None ->
  afterValidation env values w = behaviour env values w.
Proof.
  intros V. unfold behaviour. rewrite V.
  unfold afterValidation, bind at 1, useTransfer.
  unfold bind. rewrite resolveCategory_run.
  destruct (findTransferCategory env) as [cat|];
    [|destruct (createCategory_settles env) as [res|]; [|reflexivity];
      destruct (responseData res) as [cat|]; [|reflexivity]];
    unfold submit, submitRun, mutateAsync, bind, emit, ret, throw,
      form_reset, onClose, submitted;
    destruct (bulkCreate_settles env); reflexivity.
Qed.

(** Every run of [onSubmit] is the one tabulated by [behaviour]. *)
Lemma onSubmit_behaviour env values w :
  onSubmit env values w = behaviour env values w.
Proof.
  destruct (validate env values) as [k|] eqn:V.
  - rewrite (onSubmit_rejected env values w k V).
    unfold behaviour. now rewrite V.
  - rewrite (onSubmit_validated env values w V).
    now apply afterValidation_run.
Qed.

Lemma notifications_not_write k :
  existsb isWrite (notifications k) = false.
Proof. now destruct k. Qed.

Lemma validate_kinds env values k :
  validate env values = Some k ->
  k = InvalidAmount \/ k = SameAccount \/ k = InsufficientFunds.
Proof.
  unfold validate.
  destruct (invalidAmount _); [intros [= <-]; auto|].
  destruct (String.eqb _ _); [intros [= <-]; auto|].
  destruct (exceeds _ _); [intros [= <-]; auto|discriminate].
Qed.

Lemma amountMili_not_nan values :
  invalidAmount (parseAmount (amount values)) = false ->
  Num.isNaN (amountMili values) = false.
Proof.
  unfold invalidAmount, amountMili, convertAmountToMiliunits.
  intros H. apply orb_false_iff in H as [H1 H2].
  now apply NumFacts.round_not_nan, NumFacts.mul_thousand_not_nan.
Qed.

Lemma validated_amount env values :
  validate env values = None ->
  invalidAmount (parseAmount (amount values)) = false
  /\ String.eqb (fromAccountId values) (toAccountId values) = false
  /\ exceeds (amountMili values) (remaining env) = false.
Proof.
  unfold validate.
  destruct (invalidAmount _); [discriminate|].
  destruct (String.eqb _ _); [discriminate|].
  destruct (exceeds _ _); [discriminate|]. auto.
Qed.

Lemma bulk_create_payload env values w items :
  In (BulkCreate items) (calls (onSubmit env values w)) ->
  validate env values = None
  /\ exists cat, items = payload env values cat (amountMili values).
Proof.
  rewrite onSubmit_behaviour. unfold behaviour, submitRun.
  destruct (validate env values) as [k|].
  - intros I. exfalso. destruct k; cbn in I;
      repeat (destruct I as [I|I]; try discriminate I); contradiction.
  - destruct (findTransferCategory env);
      [|destruct (createCategory_settles env) as [res|];
        [destruct (responseData res)|]];
      try destruct (bulkCreate_settles env);
      intros I; cbn in I;
      repeat (destruct I as [I|I]; try discriminate I); try contradiction;
      injection I as <-; split; eauto.
Qed.

Lemma find_map_option (accounts : list Account) (id : string) :
  find (fun o => String.eqb (value o) id)
       (map (fun a => {| label := acc_name a; value := acc_id a |}) accounts)
  = option_map (fun a => {| label := acc_name a; value := acc_id a |})
      (find (fun a => String.eqb (acc_id a) id) accounts).
Proof.
  induction accounts as [|a accounts IH]; [reflexivity|].
  cbn [map find value]. destruct (String.eqb (acc_id a) id); [reflexivity|].
  exact IH.
Qed.

Lemma shown_name env id : orElse (accountName env id) id = shownAs env id.
Proof.
  unfold shownAs, accountName, accountOptions. rewrite find_map_option.
  now destruct (find _ _).
Qed.

End SheetFacts.


(** ** The session store *)

Module StoreFacts.

Import UseTransfer.

Lemma step_closed_clear st a : closed_clear (step st a).
Proof. destruct a; unfold closed_clear; cbn; [discriminate | reflexivity]. Qed.

Lemma fold_closed_clear acts :
  forall st, closed_clear st -> closed_clear (fold_left step acts st).
Proof.
  induction acts as [|a acts IH]; intros st H; cbn; [exact H|].
  apply IH, step_closed_clear.
Qed.

End StoreFacts.

(** ** The model on known values *)

Module Checks.

Import TransferSheet.

(** 0.1 is 0x3FB999999999999A. *)
Example parseFloat_tenth :
  Str.parseFloat "0.1" = S754_finite false 7205759403792794 (-56).
Proof. vm_compute. reflexivity. Qed.

Example parseFloat_prefix : Str.parseFloat "  -12.5e1abc" = Num.of_Z (-125).
Proof. vm_compute. reflexivity. Qed.

Example parseFloat_point : Str.parseFloat "." = Num.NaN.
Proof. vm_compute. reflexivity. Qed.

Example parseFloat_overflow : Str.parseFloat "1e400" = S754_infinity false.
Proof. vm_compute. reflexivity. Qed.

Example replace_first_only : Str.replace "," "." "1,234,5" = "1.234,5".
Proof. vm_compute. reflexivity. Qed.

Example round_half_up :
  Num.round (Str.parseFloat "2.5") = Num.of_Z 3
  /\ Num.round (Str.parseFloat "-2.5") = Num.of_Z (-2)
  /\ Num.round (Str.parseFloat "-0.5") = S754_zero true.
Proof. vm_compute. repeat split. Qed.

Example miliunits_of_forty :
  convertAmountToMiliunits (parseAmount "40.00") = Num.of_Z 40000.
Proof. vm_compute. reflexivity. Qed.

(** The transfer of 40.00 from [acc_1], balance 100.00, to [acc_2]: the two
    transactions are requested, the form is reset and the sheet closed. *)
Example transfer_of_forty :
  onSubmit Sample.env (Sample.transfer "acc_1" "acc_2" "40.00") Sample.world
  = (Normal tt,
     {| store := UseTransfer.init;
        form := {| f_date := 1704153600000;
                   f_fromAccountId := Some "acc_1";
                   f_toAccountId := None;
                   f_amount := EmptyString;
                   f_notes := Undefined |} |},
     [BulkCreate
        [ {| t_date := 1704067200000;
             t_accountId := "acc_1";
             t_categoryId := "cat_t";
             t_payee := "Transferência para Banco";
             t_amount := Num.of_Z (-40000);
             t_notes := None |};
          {| t_date := 1704067200000;
             t_accountId := "acc_2";
             t_categoryId := "cat_t";
             t_payee := "Transferência de Carteira";
             t_amount := Num.of_Z 40000;
             t_notes := None |} ]]).
Proof. vm_compute. reflexivity. Qed.

End Checks.

(** ** The properties of the transfer workflow *)

Import TransferSheet.

(** C9. Session state invariant: from the initial state, after any sequence
    of [onOpen] and [onClose], a store that is not open holds no preselected
    source account. *)
Theorem closed_session_has_no_preselection (acts : list UseTransfer.Action) :
  UseTransfer.isOpen (UseTransfer.run acts) = false ->
  UseTransfer.fromAccountId (UseTransfer.run acts) = None.
Proof.
  apply StoreFacts.fold_closed_clear. intros _. reflexivity.
Qed.

Lemma closed_session_has_no_preselection_witness :
  UseTransfer.fromAccountId
    (UseTransfer.run [UseTransfer.Open (Some "acc_1"); UseTransfer.Close])
  = None.
Proof.
  apply (closed_session_has_no_preselection
           [UseTransfer.Open (Some "acc_1"); UseTransfer.Close]).
  reflexivity.
Defined.

(** C2. Whenever the validation rejects a submission (invalid amount, same
    account or insufficient funds), nothing is written: no category creation
    call and no bulk creation call is made, and the store and the form are
    left as they were. *)
Theorem rejection_writes_nothing env values w k :
  validate env values = Some k ->
  (k = InvalidAmount \/ k = SameAccount \/ k = InsufficientFunds)
  /\ completion (onSubmit env values w) = Normal tt
  /\ final (onSubmit env values w) = w
  /\ (forall name, ~ In (CreateCategory name) (calls (onSubmit env values w)))
  /\ (forall items, ~ In (BulkCreate items) (calls (onSubmit env values w))).
Proof.
  intros V. rewrite (SheetFacts.onSubmit_rejected env values w k V).
  split; [exact (SheetFacts.validate_kinds env values k V)|].
  cbn [completion final calls fst snd].
  repeat split; intros x H; destruct k; cbn in H;
    repeat (destruct H as [H|H]; try discriminate H); exact H.
Qed.

Lemma rejection_writes_nothing_witness :
  validate Sample.env_low (Sample.transfer "acc_1" "acc_2" "50.00")
  = Some InsufficientFunds
  /\ final (onSubmit Sample.env_low (Sample.transfer "acc_1" "acc_2" "50.00")
                     Sample.world) = Sample.world
  /\ calls (onSubmit Sample.env_low (Sample.transfer "acc_1" "acc_2" "50.00")
                     Sample.world) = [insufficientFundsToast].
Proof.
  assert (V : validate Sample.env_low (Sample.transfer "acc_1" "acc_2" "50.00")
              = Some InsufficientFunds) by (vm_compute; reflexivity).
  split; [exact V|].
  split.
  - exact (proj1 (proj2 (proj2
      (rejection_writes_nothing Sample.env_low
         (Sample.transfer "acc_1" "acc_2" "50.00") Sample.world
         InsufficientFunds V)))).
  - vm_compute. reflexivity.
Defined.

(** C1. For every submission that passes the validation and for which the
    category is resolved, exactly one bulk creation is requested, after the
    resolver's calls; its payload holds exactly two transactions, of amounts
    [-|amount|] (from the source account) and [+|amount|] (to the target
    account), each the opposite of the other and, the balance figure being a
    finite number, of sum zero; both carry the date of the form, the id of the
    resolved category and the same notes. *)
Theorem transfer_pair_cancels env values w cat :
  validate env values = None ->
  completion (resolveCategory env w) = Normal (Some cat) ->
  exists outflow inflow,
    calls (onSubmit env values w)
    = (calls (resolveCategory env w) ++ [BulkCreate [outflow; inflow]])%list
    /\ existsb isBulkCreate (calls (resolveCategory env w)) = false
    /\ t_amount outflow = Num.neg (Num.abs (amountMili values))
    /\ t_amount inflow = Num.abs (amountMili values)
    /\ t_amount outflow = Num.neg (t_amount inflow)
    /\ (Num.isFinite (remaining env) = true ->
        Num.add (t_amount outflow) (t_amount inflow) = Num.zero)
    /\ t_accountId outflow = fromAccountId values
    /\ t_accountId inflow = toAccountId values
    /\ t_date outflow = date values /\ t_date inflow = date values
    /\ t_categoryId outflow = cat_id cat /\ t_categoryId inflow = cat_id cat
    /\ t_notes outflow = t_notes inflow.
Proof.
  intros V R.
  destruct (SheetFacts.validated_amount env values V) as (A & _ & X).
  rewrite SheetFacts.onSubmit_behaviour. unfold behaviour. rewrite V.
  rewrite SheetFacts.resolveCategory_run in R |- *.
  assert (S : forall before,
             exists outflow inflow,
               calls (submitRun env values w cat before)
               = (before ++ [BulkCreate [outflow; inflow]])%list
               /\ t_amount outflow = Num.neg (Num.abs (amountMili values))
               /\ t_amount inflow = Num.abs (amountMili values)
               /\ t_amount outflow = Num.neg (t_amount inflow)
               /\ (Num.isFinite (remaining env) = true ->
                   Num.add (t_amount outflow) (t_amount inflow) = Num.zero)
               /\ t_accountId outflow = fromAccountId values
               /\ t_accountId inflow = toAccountId values
               /\ t_date outflow = date values /\ t_date inflow = date values
               /\ t_categoryId outflow = cat_id cat
               /\ t_categoryId inflow = cat_id cat
               /\ t_notes outflow = t_notes inflow).
  { intros before. unfold submitRun, payload.
    eexists; eexists. split.
    - destruct (bulkCreate_settles env); reflexivity.
    - cbn [t_amount t_accountId t_date t_categoryId t_notes].
      repeat split. intros F.
      apply NumFacts.add_neg_abs.
      apply (NumFacts.not_exceeding_finite _ (remaining env)); auto.
      now apply SheetFacts.amountMili_not_nan. }
  destruct (findTransferCategory env) as [c|].
  - cbn in R. injection R as ->.
    destruct (S []) as (o & i & E & P). exists o, i. split; [exact E|].
    split; [reflexivity | exact P].
  - destruct (createCategory_settles env) as [res|]; [|discriminate R].
    cbn in R. injection R as R. rewrite R.
    destruct (S [CreateCategory transferCategoryName]) as (o & i & E & P).
    exists o, i. split; [exact E|]. split; [reflexivity | exact P].
Qed.

Lemma transfer_pair_cancels_witness :
  exists outflow inflow,
    calls (onSubmit Sample.env (Sample.transfer "acc_1" "acc_2" "40.00")
                    Sample.world)
    = [BulkCreate [outflow; inflow]]
    /\ t_amount outflow = Num.of_Z (-40000)
    /\ t_amount inflow = Num.of_Z 40000
    /\ Num.add (t_amount outflow) (t_amount inflow) = Num.zero.
Proof.
  destruct (transfer_pair_cancels Sample.env
              (Sample.transfer "acc_1" "acc_2" "40.00") Sample.world
              Sample.transferCat)
    as (o & i & E & _ & Ao & Ai & _ & Z0 & _).
  - vm_compute. reflexivity.
  - vm_compute. reflexivity.
  - exists o, i. split; [exact E|]. split; [|split].
    + rewrite Ao. vm_compute. reflexivity.
    + rewrite Ai. vm_compute. reflexivity.
    + apply Z0. vm_compute. reflexivity.
Defined.

(** C3, as stated, fails.  With no category fetched the resolver, if called,
    requests a creation; a submission between equal accounts is refused by the
    validation with no such request: the calls of [onSubmit] do not start
    with the resolver's. *)
Lemma resolver_not_called_first :
  calls (resolveCategory Sample.env_bare Sample.world)
  = [CreateCategory transferCategoryName]
  /\ calls (onSubmit Sample.env_bare (Sample.transfer "acc_1" "acc_1" "40.00")
                     Sample.world)
     = [sameAccountToast]
  /\ ~ Spec.resolverCalledFirst.
Proof.
  split; [vm_compute; reflexivity|].
  split; [vm_compute; reflexivity|].
  intros H.
  destruct (H Sample.env_bare (Sample.transfer "acc_1" "acc_1" "40.00")
              Sample.world) as [rest E].
  vm_compute in E. discriminate E.
Qed.

(** C3, amended.  On every submission [onSubmit] first runs the validation,
    on the submitted form values and the remaining amount of the latest
    balance data; when it rejects, the resolver is not called (the only call
    is the notification, if any); when it passes, the resolver is called
    next, before anything else. *)
Theorem validation_precedes_resolution env values w :
  match validate env values with
  | Some k =>
      calls (onSubmit env values w) = notifications k
      /\ existsb isCreateCategory (calls (onSubmit env values w)) = false
  | None =>
      exists rest,
        calls (onSubmit env values w)
        = (calls (resolveCategory env w) ++ rest)%list
  end.
Proof.
  rewrite SheetFacts.onSubmit_behaviour. unfold behaviour.
  destruct (validate env values) as [k|].
  - split; [reflexivity | now destruct k].
  - rewrite SheetFacts.resolveCategory_run.
    destruct (findTransferCategory env) as [cat|].
    + eexists. reflexivity.
    + destruct (createCategory_settles env) as [res|].
      * destruct (responseData res) as [cat|].
        -- unfold submitRun.
           destruct (bulkCreate_settles env); eexists; reflexivity.
        -- exists [categoryFailedToast]. reflexivity.
      * exists []. reflexivity.
Qed.

(** C4. For a positive amount and distinct accounts, the validation rejects
    with insufficient funds exactly when [|amount| > |remaining|], and then
    the only call is that notification; an amount equal to the remaining
    figure passes, and so does, on a negative remaining figure, any amount
    whose magnitude is within the magnitude of that figure. *)
Theorem insufficient_funds_iff_exceeds env values w :
  invalidAmount (parseAmount (amount values)) = false ->
  fromAccountId values <> toAccountId values ->
  (validate env values = Some InsufficientFunds
   <-> Num.gtb (Num.abs (amountMili values)) (Num.abs (remaining env)) = true)
  /\ (calls (onSubmit env values w) = [insufficientFundsToast]
      <-> Num.gtb (Num.abs (amountMili values)) (Num.abs (remaining env)) = true)
  /\ (Num.gtb (Num.abs (amountMili values)) (Num.abs (remaining env)) = false
      -> validate env values = None)
  /\ (amountMili values = remaining env -> validate env values = None)
  /\ (Num.ltb (remaining env) Num.zero = true ->
      Num.leb (Num.abs (amountMili values)) (Num.abs (remaining env)) = true ->
      validate env values = None).
Proof.
  intros A D. apply String.eqb_neq in D.
  assert (V : validate env values
              = if Num.gtb (Num.abs (amountMili values))
                           (Num.abs (remaining env))
                then Some InsufficientFunds else None).
  { unfold validate. rewrite A, D. reflexivity. }
  split; [|split; [|split; [|split]]].
  - rewrite V. destruct (Num.gtb _ _); split; congruence.
  - rewrite SheetFacts.onSubmit_behaviour. unfold behaviour. rewrite V.
    destruct (Num.gtb _ _); [split; reflexivity|].
    split; [|discriminate].
    destruct (findTransferCategory env) as [cat|].
    + unfold submitRun. destruct (bulkCreate_settles env); discriminate.
    + destruct (createCategory_settles env) as [res|]; [|discriminate].
      destruct (responseData res) as [cat|]; [|discriminate].
      unfold submitRun. destruct (bulkCreate_settles env); discriminate.
  - intros G. now rewrite V, G.
  - intros E. rewrite V, E. now rewrite NumFacts.gtb_irrefl.
  - intros _ L. rewrite V. now rewrite (NumFacts.leb_not_gtb _ _ L).
Qed.

Lemma insufficient_funds_iff_exceeds_witness :
  validate Sample.env_low (Sample.transfer "acc_1" "acc_2" "10,001")
  = Some InsufficientFunds
  /\ validate Sample.env_low (Sample.transfer "acc_1" "acc_2" "10.00") = None
  /\ validate Sample.env_overdrawn (Sample.transfer "acc_1" "acc_2" "50")
     = None.
Proof.
  split; [|split].
  - destruct (insufficient_funds_iff_exceeds Sample.env_low
                (Sample.transfer "acc_1" "acc_2" "10,001") Sample.world)
      as ((_ & H) & _).
    + vm_compute. reflexivity.
    + discriminate.
    + apply H. vm_compute. reflexivity.
  - destruct (insufficient_funds_iff_exceeds Sample.env_low
                (Sample.transfer "acc_1" "acc_2" "10.00") Sample.world)
      as (_ & _ & _ & H & _).
    + vm_compute. reflexivity.
    + discriminate.
    + apply H. vm_compute. reflexivity.
  - destruct (insufficient_funds_iff_exceeds Sample.env_overdrawn
                (Sample.transfer "acc_1" "acc_2" "50") Sample.world)
      as (_ & _ & _ & _ & H).
    + vm_compute. reflexivity.
    + discriminate.
    + apply H; vm_compute; reflexivity.
Defined.

(** C5, as stated, fails.  The amount is checked before the accounts are
    compared: between equal accounts an amount of zero is refused as an
    invalid amount, silently, and not as a transfer to the same account. *)
Lemma same_account_invalid_amount_first :
  validate Sample.env (Sample.transfer "acc_1" "acc_1" "0")
  = Some InvalidAmount
  /\ calls (onSubmit Sample.env (Sample.transfer "acc_1" "acc_1" "0")
                     Sample.world) = []
  /\ ~ Spec.sameAccountWhateverAmount.
Proof.
  split; [vm_compute; reflexivity|].
  split; [vm_compute; reflexivity|].
  intros H.
  specialize (H Sample.env (Sample.transfer "acc_1" "acc_1" "0") eq_refl).
  vm_compute in H. discriminate H.
Qed.

(** C5, amended.  For every submission whose amount parses to a positive
    number and whose source and target accounts are equal, the validation
    rejects with the same-account reason, whatever that amount and whatever
    the balance data (no balance comparison is involved): the only call is the
    notification and nothing changes. *)
Theorem same_account_rejected env values w :
  fromAccountId values = toAccountId values ->
  invalidAmount (parseAmount (amount values)) = false ->
  validate env values = Some SameAccount
  /\ onSubmit env values w = (Normal tt, w, [sameAccountToast]).
Proof.
  intros E A.
  assert (V : validate env values = Some SameAccount).
  { unfold validate. rewrite A, E, String.eqb_refl. reflexivity. }
  split; [exact V|].
  exact (SheetFacts.onSubmit_rejected env values w SameAccount V).
Qed.

Lemma same_account_rejected_witness :
  onSubmit Sample.env_bare (Sample.transfer "acc_1" "acc_1" "1e9") Sample.world
  = (Normal tt, Sample.world, [sameAccountToast]).
Proof.
  apply (same_account_rejected Sample.env_bare
           (Sample.transfer "acc_1" "acc_1" "1e9") Sample.world).
  - reflexivity.
  - vm_compute. reflexivity.
Defined.

(** C6. If the resolution attempts a creation and the collaborator answers
    without a usable category, the submission ends with the category
    notification and no transaction is written: the creation request and the
    notification are the only calls, and the store and the form are left as
    they were. *)
Theorem category_failure_writes_no_transaction env values w name res :
  In (CreateCategory name) (calls (onSubmit env values w)) ->
  createCategory_settles env = Fulfilled res ->
  responseData res = None ->
  onSubmit env values w
  = (Normal tt, w, [CreateCategory transferCategoryName; categoryFailedToast])
  /\ (forall items, ~ In (BulkCreate items) (calls (onSubmit env values w))).
Proof.
  rewrite SheetFacts.onSubmit_behaviour. unfold behaviour.
  intros C S D.
  destruct (validate env values) as [k|].
  - exfalso. destruct k; cbn in C;
      repeat (destruct C as [C|C]; try discriminate C); exact C.
  - destruct (findTransferCategory env) as [cat|].
    + exfalso. unfold submitRun in C.
      destruct (bulkCreate_settles env); cbn in C;
        repeat (destruct C as [C|C]; try discriminate C); exact C.
    + rewrite S, D. split; [reflexivity|].
      intros items H. cbn in H.
      repeat (destruct H as [H|H]; try discriminate H); exact H.
Qed.

Lemma category_failure_writes_no_transaction_witness :
  onSubmit Sample.env_creation_fails (Sample.transfer "acc_1" "acc_2" "40.00")
           Sample.world
  = (Normal tt, Sample.world,
     [CreateCategory transferCategoryName; categoryFailedToast]).
Proof.
  apply (category_failure_writes_no_transaction Sample.env_creation_fails
           (Sample.transfer "acc_1" "acc_2" "40.00") Sample.world
           transferCategoryName (Some {| res_data := None |})).
  - vm_compute. left. reflexivity.
  - reflexivity.
  - reflexivity.
Defined.

(** C7, as stated, fails.  [parseFloat] converts the longest numeric prefix
    and ignores what follows it: an amount with trailing text is not numeric,
    yet it is not refused; it is taken as 12, 12000 miliunits. *)
Lemma trailing_text_accepted :
  Spec.numeric "12abc" = false
  /\ invalidAmount (parseAmount "12abc") = false
  /\ convertAmountToMiliunits (parseAmount "12abc") = Num.of_Z 12000
  /\ ~ Spec.failsExactlyWhenNotNumeric.
Proof.
  split; [vm_compute; reflexivity|].
  split; [vm_compute; reflexivity|].
  split; [vm_compute; reflexivity|].
  intros H. destruct (H "12abc") as [_ H2].
  assert (E : invalidAmount (parseAmount "12abc") = true)
    by (apply H2; left; vm_compute; reflexivity).
  vm_compute in E. discriminate E.
Qed.

(** C7, amended.  The amount is read by [parseFloat] after the first [,] is
    replaced by [.], so either separator is accepted.  It is refused exactly
    when, after that replacement, the string has no numeric prefix (text
    after such a prefix is ignored) or the number read is not positive.  The
    miliunits are [Math.round(amount * 1000)]: an integer whenever finite. *)
Theorem amount_codec (s : string) :
  (invalidAmount (parseAmount s) = true <->
   (Str.hasNumericPrefix (Str.replace "," "." s) = false
    \/ Num.leb (parseAmount s) Num.zero = true))
  /\ (Num.isFinite (convertAmountToMiliunits (parseAmount s)) = true ->
      Num.isInteger (convertAmountToMiliunits (parseAmount s)) = true)
  /\ (forall a b : string,
        s = a ++ "," ++ b ->
        Str.mem "," a = false -> Str.mem "," b = false ->
        parseAmount s = parseAmount (a ++ "." ++ b)).
Proof.
  split; [|split].
  - unfold invalidAmount, parseAmount. rewrite StrFacts.parseFloat_nan.
    destruct (Str.hasNumericPrefix _); cbn [negb orb]; split.
    + intros H. now right.
    + intros [H|H]; [discriminate H | exact H].
    + intros _. now left.
    + reflexivity.
  - unfold convertAmountToMiliunits. rewrite NumFacts.round_finite.
    apply NumFacts.round_integer.
  - intros a b -> Ha Hb. unfold parseAmount.
    rewrite (StrFacts.replace_first a b Ha).
    rewrite StrFacts.replace_absent; [reflexivity|].
    rewrite StrFacts.mem_app, Ha. cbn. exact Hb.
Qed.

Lemma amount_codec_witness :
  parseAmount "12,5" = parseAmount "12.5"
  /\ convertAmountToMiliunits (parseAmount "12,5") = Num.of_Z 12500
  /\ Num.isInteger (convertAmountToMiliunits (parseAmount "12,5")) = true
  /\ invalidAmount (parseAmount "abc") = true.
Proof.
  destruct (amount_codec "12,5") as (_ & I & C).
  destruct (amount_codec "abc") as ((_ & N) & _).
  split; [|split; [|split]].
  - apply (C "12" "5"); reflexivity.
  - vm_compute. reflexivity.
  - apply I. vm_compute. reflexivity.
  - apply N. left. vm_compute. reflexivity.
Defined.

(** C8, as stated, fails.  An amount that is not a positive number (here the
    empty amount of a fresh form) ends the submission silently: no
    notification is issued. *)
Lemma invalid_amount_not_notified :
  outcome Sample.env (Sample.transfer "acc_1" "acc_2" EmptyString) = Failed InvalidAmount
  /\ onSubmit Sample.env (Sample.transfer "acc_1" "acc_2" EmptyString) Sample.world
     = (Normal tt, Sample.world, [])
  /\ ~ Spec.everyErrorNotified.
Proof.
  split; [vm_compute; reflexivity|].
  split; [vm_compute; reflexivity|].
  intros H.
  specialize (H Sample.env (Sample.transfer "acc_1" "acc_2" EmptyString) Sample.world
                InvalidAmount).
  vm_compute in H. specialize (H eq_refl). discriminate H.
Qed.

(** C8, amended.  A same-account, insufficient-funds or category failure is
    surfaced by [onSubmit] as exactly one notification, that of its kind, and
    [onSubmit] returns normally, the store and the form unchanged.  An invalid
    amount makes [onSubmit] return normally with no notification and no other
    call.  When the bulk creation fails, [onSubmit] issues no notification of
    its own: the rejection of the mutation is passed on to the caller, the
    store and the form unchanged. *)
Theorem error_notifications env values w k :
  outcome env values = Failed k ->
  final (onSubmit env values w) = w
  /\ match k with
     | InvalidAmount => onSubmit env values w = (Normal tt, w, [])
     | SameAccount | InsufficientFunds | CategoryResolutionFailed =>
         completion (onSubmit env values w) = Normal tt
         /\ filter isToast (calls (onSubmit env values w)) = notifications k
     | SubmissionFailed =>
         completion (onSubmit env values w) = Throw
         /\ filter isToast (calls (onSubmit env values w)) = []
     end.
Proof.
  rewrite SheetFacts.onSubmit_behaviour. unfold outcome, behaviour.
  pose proof (SheetFacts.validate_kinds env values) as K.
  assert (B : forall cat before,
             filter isToast before = [] ->
             submitOutcome env = Failed k ->
             k = SubmissionFailed
             /\ submitRun env values w cat before
                = (Throw, w,
                   (before ++ [BulkCreate
                                 (payload env values cat (amountMili values))])
                   %list)).
  { intros cat before _. unfold submitOutcome, submitRun.
    destruct (bulkCreate_settles env); [discriminate|].
    intros [= <-]. split; reflexivity. }
  destruct (validate env values) as [k'|].
  - intros [= <-].
    destruct (K k' eq_refl) as [-> | [-> | ->]]; repeat split; reflexivity.
  - destruct (findTransferCategory env) as [cat|].
    + intros O. destruct (B cat [] eq_refl O) as [-> ->].
      repeat split; reflexivity.
    + destruct (createCategory_settles env) as [res|]; [|discriminate].
      destruct (responseData res) as [cat|].
      * intros O.
        destruct (B cat [CreateCategory transferCategoryName] eq_refl O)
          as [-> ->].
        repeat split; reflexivity.
      * intros [= <-]. repeat split; reflexivity.
Qed.

Lemma error_notifications_witness :
  filter isToast
    (calls (onSubmit Sample.env_low (Sample.transfer "acc_1" "acc_2" "50.00")
                     Sample.world))
  = [insufficientFundsToast]
  /\ completion (onSubmit Sample.env_bulk_fails
                          (Sample.transfer "acc_1" "acc_2" "40.00")
                          Sample.world) = Throw.
Proof.
  split.
  - apply (error_notifications Sample.env_low
             (Sample.transfer "acc_1" "acc_2" "50.00") Sample.world
             InsufficientFunds).
    vm_compute. reflexivity.
  - apply (error_notifications Sample.env_bulk_fails
             (Sample.transfer "acc_1" "acc_2" "40.00") Sample.world
             SubmissionFailed).
    vm_compute. reflexivity.
Defined.

(** C10, as stated, fails.  Without balance data the remaining amount is 0,
    but a positive amount is not always refused for insufficient funds:
    between equal accounts it is refused for the accounts, and an amount below
    half a miliunit converts to 0 miliunits, passes the comparison with 0 and
    is written as a transfer of zero. *)
Lemma no_balance_not_always_insufficient :
  remaining Sample.env_no_balance = Num.zero
  /\ validate Sample.env_no_balance (Sample.transfer "acc_1" "acc_1" "5")
     = Some SameAccount
  /\ invalidAmount (parseAmount "0.0004") = false
  /\ calls (onSubmit Sample.env_no_balance
                     (Sample.transfer "acc_1" "acc_2" "0.0004") Sample.world)
     = [BulkCreate
          (payload Sample.env_no_balance
                   (Sample.transfer "acc_1" "acc_2" "0.0004")
                   Sample.transferCat Num.zero)]
  /\ ~ Spec.noBalanceAlwaysInsufficient.
Proof.
  split; [reflexivity|].
  split; [vm_compute; reflexivity|].
  split; [vm_compute; reflexivity|].
  split; [vm_compute; reflexivity|].
  intros H.
  destruct (H Sample.env_no_balance (Sample.transfer "acc_1" "acc_2" "0.0004")
              Sample.world eq_refl) as [V _].
  - vm_compute. reflexivity.
  - vm_compute in V. discriminate V.
Qed.

(** C10, amended.  When the balance query has produced no data the remaining
    amount used by the validation is 0; every submission whose amount parses
    to a positive number and converts to at least one miliunit is then
    rejected, for the accounts when they are equal and for insufficient funds
    otherwise, and nothing is written or changed. *)
Theorem no_balance_rejects_whole_miliunits env values w :
  balanceQuery_data env = None ->
  invalidAmount (parseAmount (amount values)) = false ->
  Num.ltb Num.zero (amountMili values) = true ->
  remaining env = Num.zero
  /\ validate env values
     = Some (if String.eqb (fromAccountId values) (toAccountId values)
             then SameAccount else InsufficientFunds)
  /\ final (onSubmit env values w) = w
  /\ existsb isWrite (calls (onSubmit env values w)) = false.
Proof.
  intros B A P.
  assert (R : remaining env = Num.zero) by (unfold remaining; now rewrite B).
  assert (V : validate env values
              = Some (if String.eqb (fromAccountId values) (toAccountId values)
                      then SameAccount else InsufficientFunds)).
  { unfold validate. rewrite A, R.
    destruct (String.eqb _ _); [reflexivity|].
    replace (exceeds (amountMili values) Num.zero) with true; [reflexivity|].
    unfold exceeds. destruct (amountMili values) as [s|[|]| |[|] m e];
      try discriminate P; reflexivity. }
  split; [exact R|]. split; [exact V|].
  rewrite (SheetFacts.onSubmit_rejected env values w _ V).
  split; [reflexivity|].
  apply SheetFacts.notifications_not_write.
Qed.

Lemma no_balance_rejects_whole_miliunits_witness :
  validate Sample.env_no_balance (Sample.transfer "acc_1" "acc_2" "0.001")
  = Some InsufficientFunds
  /\ existsb isWrite
       (calls (onSubmit Sample.env_no_balance
                        (Sample.transfer "acc_1" "acc_2" "0.001")
                        Sample.world)) = false.
Proof.
  destruct (no_balance_rejects_whole_miliunits Sample.env_no_balance
              (Sample.transfer "acc_1" "acc_2" "0.001") Sample.world)
    as (_ & V & _ & W).
  - reflexivity.
  - vm_compute. reflexivity.
  - vm_compute. reflexivity.
  - split; [exact V | exact W].
Defined.

(** ** Further properties of the store and of the sheet *)

(** Splits a run of [onSubmit] into the cases of [behaviour]. *)
Ltac run_cases env values :=
  rewrite ?SheetFacts.onSubmit_behaviour; unfold behaviour, submitRun;
  let V := fresh "V" in
  destruct (validate env values) as [?k|] eqn:V;
  [ pose proof (SheetFacts.validate_kinds env values _ V)
  | let F := fresh "F" in
    destruct (findTransferCategory env) as [?cat|] eqn:F;
    [ destruct (bulkCreate_settles env) eqn:?B
    | let S := fresh "S" in
      destruct (createCategory_settles env) as [?res|] eqn:S;
      [ let D := fresh "D" in
        destruct (responseData res) as [?cat|] eqn:D;
        [ destruct (bulkCreate_settles env) eqn:?B | ]
      | ] ] ].

(** X1. The store keeps no history: after any sequence of actions its state
    is the one the last action sets from the initial state; after a close it
    is the initial state. *)
Theorem store_keeps_no_history (acts : list UseTransfer.Action)
        (a : UseTransfer.Action) :
  UseTransfer.run (acts ++ [a])%list = UseTransfer.step UseTransfer.init a
  /\ UseTransfer.run (acts ++ [UseTransfer.Close])%list = UseTransfer.init.
Proof.
  unfold UseTransfer.run. rewrite !fold_left_app. cbn [fold_left].
  split; [now destruct a | reflexivity].
Qed.

(** X2. The sheet is closed and the form reset exactly when the bulk creation
    was requested and succeeded: the form then keeps the preselected source
    account, with no target and an empty amount.  In every other run, a
    rejected mutation included, the store and the form are left untouched. *)
Theorem sheet_changes_only_on_completion env values w :
  final (onSubmit env values w)
  = match completion (onSubmit env values w),
          existsb isBulkCreate (calls (onSubmit env values w)) with
    | Normal _, true =>
        {| store := UseTransfer.init;
           form := {| f_date := now env;
                      f_fromAccountId := UseTransfer.fromAccountId (store w);
                      f_toAccountId := None;
                      f_amount := EmptyString;
                      f_notes := Undefined |} |}
    | _, _ => w
    end.
Proof.
  run_cases env values; try reflexivity.
  destruct H as [-> | [-> | ->]]; reflexivity.
Qed.

(** X3. The promise of [onSubmit] is rejected only by a rejected mutation:
    the call of that mutation is then the last call made, and no notification
    was issued. *)
Theorem rejection_comes_from_a_mutation env values w :
  completion (onSubmit env values w) = Throw ->
  filter isToast (calls (onSubmit env values w)) = []
  /\ exists before,
      (calls (onSubmit env values w)
       = (before ++ [CreateCategory transferCategoryName])%list
       /\ createCategory_settles env = Rejected)
      \/ (exists items,
            calls (onSubmit env values w) = (before ++ [BulkCreate items])%list
            /\ bulkCreate_settles env = Rejected).
Proof.
  run_cases env values; cbn [completion fst]; try discriminate; intros _.
  - split; [reflexivity|]. exists []. right. eexists. split; reflexivity.
  - split; [reflexivity|]. exists [CreateCategory transferCategoryName].
    right. eexists. split; reflexivity.
  - split; [reflexivity|]. exists []. left. split; reflexivity.
Qed.

Lemma rejection_comes_from_a_mutation_witness :
  filter isToast
    (calls (onSubmit Sample.env_bulk_fails
                     (Sample.transfer "acc_1" "acc_2" "40.00") Sample.world))
  = [].
Proof.
  apply (rejection_comes_from_a_mutation Sample.env_bulk_fails
           (Sample.transfer "acc_1" "acc_2" "40.00") Sample.world).
  vm_compute. reflexivity.
Defined.

(** X4. A submission makes at most one notification, at most one category
    creation request and at most one bulk creation request; the bulk creation
    request, if any, is the last call; and a submission that notifies an error
    requests no bulk creation. *)
Theorem calls_of_a_submission env values w :
  (List.length (filter isToast (calls (onSubmit env values w))) <= 1)%nat
  /\ (List.length (filter isCreateCategory (calls (onSubmit env values w))) <= 1)%nat
  /\ (List.length (filter isBulkCreate (calls (onSubmit env values w))) <= 1)%nat
  /\ existsb isBulkCreate (removelast (calls (onSubmit env values w))) = false
  /\ existsb isToast (calls (onSubmit env values w))
     && existsb isBulkCreate (calls (onSubmit env values w)) = false.
Proof.
  run_cases env values; try (cbn; repeat split; lia).
  destruct H as [-> | [-> | ->]]; cbn; repeat split; lia.
Qed.

(** X5. A fetched category of the reserved name is reused, the first one in
    the fetched order when there are several: no creation is requested, and
    every transaction requested carries the id of that first category. *)
Theorem first_matching_category_reused env values w earlier c later :
  categoryQuery_data env = Some (earlier ++ c :: later)%list ->
  cat_name c = transferCategoryName ->
  forallb (fun x => negb (String.eqb (cat_name x) transferCategoryName))
          earlier = true ->
  existsb isCreateCategory (calls (onSubmit env values w)) = false
  /\ forall items,
       In (BulkCreate items) (calls (onSubmit env values w)) ->
       Forall (fun t => t_categoryId t = cat_id c) items.
Proof.
  intros Q N E.
  assert (F : findTransferCategory env = Some c).
  { unfold findTransferCategory. rewrite Q. cbn [orElse].
    clear Q. induction earlier as [|x earlier IH]; cbn [app find].
    - now rewrite N, String.eqb_refl.
    - cbn [forallb] in E. apply andb_true_iff in E as [E1 E2].
      apply negb_true_iff in E1. rewrite E1. now apply IH. }
  rewrite SheetFacts.onSubmit_behaviour. unfold behaviour, submitRun.
  rewrite F.
  destruct (validate env values) as [k|]; [destruct k|];
    try destruct (bulkCreate_settles env);
    (split; [reflexivity|]); intros items H; cbn in H;
    repeat (destruct H as [H|H]; try discriminate H); try contradiction;
    injection H as <-; unfold payload; repeat constructor.
Qed.

Lemma first_matching_category_reused_witness :
  existsb isCreateCategory
    (calls (onSubmit Sample.env (Sample.transfer "acc_1" "acc_2" "40.00")
                     Sample.world)) = false.
Proof.
  apply (first_matching_category_reused Sample.env
           (Sample.transfer "acc_1" "acc_2" "40.00") Sample.world
           [] Sample.transferCat []); reflexivity.
Defined.

(** X6. A category creation is requested exactly when the validation passed
    and no fetched category has the reserved name; the name requested is
    always the reserved one. *)
Theorem creation_requested_iff env values w :
  ((exists name, In (CreateCategory name) (calls (onSubmit env values w)))
   <-> (validate env values = None /\ findTransferCategory env = None))
  /\ (forall name,
        In (CreateCategory name) (calls (onSubmit env values w)) ->
        name = transferCategoryName).
Proof.
  run_cases env values.
  1: destruct H as [-> | [-> | ->]].
  all: cbn [calls snd notifications app]; split;
    [ split;
      [ intros [name I]; cbn in I;
        repeat (destruct I as [I|I]; try discriminate I); try contradiction;
        auto
      | intros [E1 E2]; try discriminate E1; try discriminate E2;
        exists transferCategoryName; cbn; auto ]
    | intros name I; cbn in I;
      repeat (destruct I as [I|I]; try discriminate I); try contradiction;
      now injection I as <- ].
Qed.

(** X7. Transactions are requested exactly when the validation passed and a
    category is at hand, fetched or just created with data. *)
Theorem transactions_requested_iff env values w :
  (exists items, In (BulkCreate items) (calls (onSubmit env values w)))
  <-> (validate env values = None
       /\ (findTransferCategory env <> None
           \/ exists res cat,
                createCategory_settles env = Fulfilled res
                /\ responseData res = Some cat)).
Proof.
  run_cases env values.
  1: destruct H as [-> | [-> | ->]].
  all: cbn [calls snd notifications app]; split;
    [ intros [items I]; cbn in I;
      repeat (destruct I as [I|I]; try discriminate I); try contradiction;
      (split; [reflexivity|]);
      try (left; discriminate); right; eauto
    | intros [E1 E2]; try discriminate E1;
      try (eexists; cbn; eauto; fail);
      destruct E2 as [E2 | (r & c & E2 & E3)]; try congruence ].
Qed.

(** X8. The two transactions of a request are on different accounts: the
    first on the source account, the second on the target account. *)
Theorem transfer_between_distinct_accounts env values w items :
  In (BulkCreate items) (calls (onSubmit env values w)) ->
  exists outflow inflow,
    items = [outflow; inflow]
    /\ t_accountId outflow = fromAccountId values
    /\ t_accountId inflow = toAccountId values
    /\ t_accountId outflow <> t_accountId inflow.
Proof.
  intros I.
  assert (V : validate env values = None).
  { revert I. run_cases env values; try reflexivity; intros I; exfalso.
    destruct H as [-> | [-> | ->]]; cbn in I;
      repeat (destruct I as [I|I]; try discriminate I); contradiction. }
  destruct (SheetFacts.validated_amount env values V) as (_ & D & _).
  apply String.eqb_neq in D.
  revert I. rewrite SheetFacts.onSubmit_behaviour. unfold behaviour, submitRun.
  rewrite V.
  destruct (findTransferCategory env);
    [|destruct (createCategory_settles env) as [res|];
      [destruct (responseData res)|]];
    try destruct (bulkCreate_settles env);
    intros I; cbn in I;
    repeat (destruct I as [I|I]; try discriminate I); try contradiction;
    injection I as <-; unfold payload; eexists; eexists;
    (split; [reflexivity|]); cbn; auto.
Qed.

Lemma transfer_between_distinct_accounts_witness :
  exists outflow inflow,
    payload Sample.env (Sample.transfer "acc_1" "acc_2" "40.00")
            Sample.transferCat (Num.of_Z 40000) = [outflow; inflow]
    /\ t_accountId outflow = "acc_1"
    /\ t_accountId inflow = "acc_2"
    /\ t_accountId outflow <> t_accountId inflow.
Proof.
  apply (transfer_between_distinct_accounts Sample.env
           (Sample.transfer "acc_1" "acc_2" "40.00") Sample.world).
  vm_compute. left. reflexivity.
Defined.

(** X9. The amounts requested are signed as a transfer is: the first is not
    positive, the second is not negative, and, the remaining amount being a
    number, the second is at most the magnitude of the remaining amount. *)
Theorem transfer_amount_within_balance env values w outflow inflow :
  In (BulkCreate [outflow; inflow]) (calls (onSubmit env values w)) ->
  Num.leb (t_amount outflow) Num.zero = true
  /\ Num.leb Num.zero (t_amount inflow) = true
  /\ (Num.isNaN (remaining env) = false ->
      Num.leb (t_amount inflow) (Num.abs (remaining env)) = true).
Proof.
  intros I.
  destruct (SheetFacts.bulk_create_payload env values w _ I) as (V & cat & E).
  destruct (SheetFacts.validated_amount env values V) as (A & _ & X).
  pose proof (SheetFacts.amountMili_not_nan values A) as N.
  unfold payload in E. injection E as -> ->. cbn [t_amount].
  split; [now apply NumFacts.neg_abs_nonpos|].
  split; [now apply NumFacts.abs_nonneg|].
  intros R. apply NumFacts.not_gtb_leb; [| |exact X];
    now rewrite NumFacts.abs_not_nan.
Qed.

Lemma transfer_amount_within_balance_witness :
  Num.leb (Num.of_Z 40000) (Num.abs (remaining Sample.env)) = true.
Proof.
  destruct (transfer_amount_within_balance Sample.env
              (Sample.transfer "acc_1" "acc_2" "40.00") Sample.world
              {| t_date := 1704067200000; t_accountId := "acc_1";
                 t_categoryId := "cat_t";
                 t_payee := "Transferência para Banco";
                 t_amount := Num.of_Z (-40000); t_notes := None |}
              {| t_date := 1704067200000; t_accountId := "acc_2";
                 t_categoryId := "cat_t";
                 t_payee := "Transferência de Carteira";
                 t_amount := Num.of_Z 40000; t_notes := None |})
    as (_ & _ & H).
  - vm_compute. left. reflexivity.
  - apply H. reflexivity.
Defined.

(** X10. With a finite remaining amount, every amount requested is a whole
    number of miliunits. *)
Theorem transfer_amounts_whole_miliunits env values w items :
  Num.isFinite (remaining env) = true ->
  In (BulkCreate items) (calls (onSubmit env values w)) ->
  Forall (fun t => Num.isInteger (t_amount t) = true) items.
Proof.
  intros R I.
  destruct (SheetFacts.bulk_create_payload env values w _ I) as (V & cat & ->).
  destruct (SheetFacts.validated_amount env values V) as (A & _ & X).
  pose proof (SheetFacts.amountMili_not_nan values A) as N.
  pose proof (NumFacts.not_exceeding_finite _ _ N R X) as F.
  assert (Z0 : Num.isInteger (amountMili values) = true).
  { unfold amountMili, convertAmountToMiliunits in F |- *.
    rewrite NumFacts.round_finite in F. now apply NumFacts.round_integer. }
  unfold payload. repeat constructor; cbn [t_amount];
    now rewrite ?NumFacts.isInteger_neg, NumFacts.isInteger_abs.
Qed.

Lemma transfer_amounts_whole_miliunits_witness :
  Forall (fun t => Num.isInteger (t_amount t) = true)
         (payload Sample.env (Sample.transfer "acc_1" "acc_2" "12,3456")
                  Sample.transferCat (Num.of_Z 12346)).
Proof.
  apply (transfer_amounts_whole_miliunits Sample.env
           (Sample.transfer "acc_1" "acc_2" "12,3456") Sample.world).
  - reflexivity.
  - vm_compute. left. reflexivity.
Defined.

(** X11. The payees name the counterparty as the account selects show it:
    the first transaction is "to" the label of the first option whose value
    is the target id, the second "from" that of the source id, and an id with
    no option (or accounts not fetched) stands for itself. *)
Theorem payee_shows_select_label env values w outflow inflow :
  In (BulkCreate [outflow; inflow]) (calls (onSubmit env values w)) ->
  t_payee outflow = "Transferência para " ++ shownAs env (toAccountId values)
  /\ t_payee inflow = "Transferência de " ++ shownAs env (fromAccountId values).
Proof.
  intros I.
  destruct (SheetFacts.bulk_create_payload env values w _ I) as (_ & cat & E).
  unfold payload in E. injection E as -> ->. cbn [t_payee].
  now rewrite !SheetFacts.shown_name.
Qed.

Lemma payee_shows_select_label_witness :
  shownAs Sample.env "acc_2" = "Banco"
  /\ "Transferência para Banco"
     = "Transferência para " ++ shownAs Sample.env "acc_2".
Proof.
  split; [reflexivity|].
  apply (payee_shows_select_label Sample.env
           (Sample.transfer "acc_1" "acc_2" "40.00") Sample.world
           {| t_date := 1704067200000; t_accountId := "acc_1";
              t_categoryId := "cat_t";
              t_payee := "Transferência para Banco";
              t_amount := Num.of_Z (-40000); t_notes := None |}
           {| t_date := 1704067200000; t_accountId := "acc_2";
              t_categoryId := "cat_t";
              t_payee := "Transferência de Carteira";
              t_amount := Num.of_Z 40000; t_notes := None |}).
  vm_compute. left. reflexivity.
Defined.

(** X12. An amount that starts with a minus sign is never accepted, whatever
    follows the sign. *)
Theorem minus_sign_refused (s : string) :
  invalidAmount (parseAmount (String "-" s)) = true.
Proof.
  unfold invalidAmount, parseAmount.
  rewrite StrFacts.replace_minus.
  apply NumFacts.signed_true_nonpos, StrFacts.parseFloat_minus_signed.
Qed.

(** X13. Only the first comma of an amount is read as the decimal separator:
    in an amount of digits, a comma, digits and a second comma, what starts
    at the second comma is dropped. *)
Theorem second_comma_drops_the_rest (c : ascii) (a b r : string) :
  Str.is_digit c = true ->
  Str.all_digits a = true ->
  Str.all_digits b = true ->
  parseAmount (String c a ++ "," ++ b ++ "," ++ r)
  = parseAmount (String c a ++ "." ++ b).
Proof.
  intros C A B. unfold parseAmount.
  assert (A' : Str.all_digits (String c a) = true) by (cbn; now rewrite C, A).
  rewrite (StrFacts.replace_first (String c a) (b ++ "," ++ r))
    by now apply StrFacts.mem_comma_digits.
  rewrite (StrFacts.replace_absent (String c a ++ "." ++ b)).
  - apply (StrFacts.parseFloat_tail c a b ("," ++ r) C A B); reflexivity.
  - rewrite StrFacts.mem_app, (StrFacts.mem_comma_digits _ A').
    cbn. now apply StrFacts.mem_comma_digits.
Qed.

Lemma second_comma_drops_the_rest_witness :
  parseAmount "1,234,56" = parseAmount "1.234"
  /\ convertAmountToMiliunits (parseAmount "1,234,56") = Num.of_Z 1234.
Proof.
  split.
  - apply (second_comma_drops_the_rest "1" EmptyString "234" "56");
      reflexivity.
  - vm_compute. reflexivity.
Defined.

(** X14. Whenever the balance query is enabled, the sheet is open and its
    query function makes exactly one request: for the account of the form's
    source field, or for the preselected account while that field is
    undefined; the account is not the empty string, the range starts at
    1970-01-01 and ends at the first ten characters of the clock reading. *)
Theorem balance_query_requests_selected_account isoNow respond w :
  balanceEnabled w = true ->
  exists id,
    UseTransfer.isOpen (store w) = true
    /\ id <> EmptyString
    /\ (f_fromAccountId (form w) = Some id
        \/ (f_fromAccountId (form w) = None
            /\ UseTransfer.fromAccountId (store w) = Some id))
    /\ fst (queryFn isoNow respond w)
       = [ {| q_accountId := id; q_from := "1970-01-01";
              q_to := substring 0 10 isoNow |} ].
Proof.
  unfold balanceEnabled, queryFn. intros H.
  apply andb_true_iff in H as [O T]. rewrite T. cbn [negb fst].
  unfold selectedFrom in *.
  destruct (f_fromAccountId (form w)) as [id|] eqn:F.
  - exists id. cbn in T. apply negb_true_iff, String.eqb_neq in T. auto.
  - destruct (UseTransfer.fromAccountId (store w)) as [id|] eqn:P;
      [|discriminate T].
    exists id. cbn in T. apply negb_true_iff, String.eqb_neq in T. auto 6.
Qed.

Lemma balance_query_requests_selected_account_witness :
  fst (queryFn "2024-01-02T00:00:00.000Z" (fun _ => None) Sample.world)
  = [ {| q_accountId := "acc_1"; q_from := "1970-01-01";
         q_to := "2024-01-02" |} ].
Proof.
  destruct (balance_query_requests_selected_account
              "2024-01-02T00:00:00.000Z" (fun _ => None) Sample.world)
    as (id & _ & _ & [F | [F _]] & Q).
  - reflexivity.
  - injection F as <-. exact Q.
  - discriminate F.
Defined.

(** X15. While the source or the target account of the form is undefined,
    submitting the form does nothing: the handler is not run, no call is made
    and nothing changes. *)
Theorem unselected_account_blocks_submit env w :
  f_fromAccountId (form w) = None \/ f_toAccountId (form w) = None ->
  handleSubmit env w = (Normal tt, w, []).
Proof.
  unfold handleSubmit, formSchema.
  intros [H | H]; rewrite H; [|destruct (f_fromAccountId (form w))];
    reflexivity.
Qed.

Lemma unselected_account_blocks_submit_witness :
  handleSubmit Sample.env
    {| store := store Sample.world;
       form := defaults Sample.env (store Sample.world) |}
  = (Normal tt,
     {| store := store Sample.world;
        form := defaults Sample.env (store Sample.world) |}, []).
Proof.
  apply (unselected_account_blocks_submit Sample.env
           {| store := store Sample.world;
              form := defaults Sample.env (store Sample.world) |}).
  right. reflexivity.
Defined.


(** X17. A completed transfer cannot be submitted a second time as it
    stands: the sheet is closed, its balance query disabled, and submitting
    the form left behind makes no call, whatever the collaborators would
    answer. *)
Theorem completed_transfer_not_resubmitted env env' values w :
  completion (onSubmit env values w) = Normal tt ->
  existsb isBulkCreate (calls (onSubmit env values w)) = true ->
  UseTransfer.isOpen (store (final (onSubmit env values w))) = false
  /\ balanceEnabled (final (onSubmit env values w)) = false
  /\ handleSubmit env' (final (onSubmit env values w))
     = (Normal tt, final (onSubmit env values w), []).
Proof.
  run_cases env values; cbn [completion calls final fst snd];
    try discriminate; try (intros _; discriminate);
    try (destruct H as [-> | [-> | ->]]; intros _; discriminate);
    intros _ _; unfold balanceEnabled, handleSubmit, formSchema, submitted;
    cbn; destruct (UseTransfer.fromAccountId (store w)); repeat split.
Qed.

Lemma completed_transfer_not_resubmitted_witness :
  handleSubmit Sample.env
    (final (onSubmit Sample.env (Sample.transfer "acc_1" "acc_2" "40.00")
                     Sample.world))
  = (Normal tt,
     final (onSubmit Sample.env (Sample.transfer "acc_1" "acc_2" "40.00")
                     Sample.world), []).
Proof.
  apply (completed_transfer_not_resubmitted Sample.env Sample.env
           (Sample.transfer "acc_1" "acc_2" "40.00") Sample.world);
    vm_compute; reflexivity.
Defined.
